(** * nalt_RDM: the n-alternative random-dots-motion task of neurogym

    A shallow embedding of [neurogym/envs/nalt_rdm.py] and the properties of
    its trial generator ([new_trial]) and of its step function ([_step]).

    Conventions of the embedding.
    - Python numbers (ints and floats alike) are rationals [Q]; floating-point
      rounding is idealised away.  Integer quantities that the code uses as
      sizes, indices, actions or counters are [Z].  Where a statement depends
      on a truncated or rounded-up quotient of times, or on elapsed time
      accumulated over several steps, it is made for whole numbers
      ([Py.whole]), on which the arithmetic of the code is exact.
    - A raised exception is [None]; a normal return is [Some].
    - The two random generators the code draws from are kept apart: the
      generator owned by the environment ([self.rng]) is a field of the
      environment, the process-wide generator of numpy ([np.random]) is a
      state threaded next to the environment.
    - numpy arrays are lists (one-dimensional) and lists of rows
      (two-dimensional). *)

From Stdlib Require Import QArith Qround Lqa ZArith Lia List Bool.
From Stdlib Require String Ascii.
Import ListNotations.
Local Open Scope Q_scope.

(** ** Error monad for raised exceptions *)

Definition bind {A B : Type} (m : option A) (k : A -> option B) : option B :=
  match m with
  | Some a => k a
  | None => None
  end.

Notation "x <- m ;; k" := (bind m (fun x => k))
  (at level 61, m at next level, right associativity).
Notation "' p <- m ;; k" := (bind m (fun x => match x with p => k end))
  (at level 61, p pattern, m at next level, right associativity).

(** ** The Python and numpy primitives the task uses *)

Module Py.

(** [int(x)]: truncation toward zero.  Applied to a quotient it truncates
    the exact quotient, which is what the code computes when dividend and
    divisor are whole numbers (see [whole] below). *)
Definition int (x : Q) : Z := Z.quot (Qnum x) (Z.pos (Qden x)).

(** [x < y] on numbers, as a boolean. *)
Definition Qltb (x y : Q) : bool := negb (Qle_bool y x).

(** [lo <= x < hi], Python's chained comparison. *)
Definition within (lo x hi : Q) : bool := Qle_bool lo x && Qltb x hi.

(** An integer index into an axis of size [len]: negative indices count from
    the end, anything else out of range is an IndexError. *)
Definition index (len : nat) (i : Z) : option nat :=
  if (0 <=? i)%Z then
    if (i <? Z.of_nat len)%Z then Some (Z.to_nat i) else None
  else
    if (- Z.of_nat len <=? i)%Z then Some (Z.to_nat (Z.of_nat len + i))
    else None.

(** [np.zeros((d,))]; a negative dimension is a ValueError. *)
Definition zeros (d : Z) : option (list Q) :=
  if (d <? 0)%Z then None else Some (repeat 0 (Z.to_nat d)).

(** [np.zeros((r, c))]. *)
Definition zeros2 (r : nat) (c : Z) : option (list (list Q)) :=
  if (c <? 0)%Z then None else Some (repeat (repeat 0 (Z.to_nat c)) r).

(** [np.arange(0, stop, step)]: [ceil(stop/step)] entries (none when that is
    not positive), the i-th being [i*step]; a zero step is an error.  The
    quotient and the products are exact, as they are in the code for whole
    numbers (see [whole] below). *)
Definition arange (stop step : Q) : option (list Q) :=
  if Qeq_bool step 0 then None
  else Some (map (fun i => inject_Z (Z.of_nat i) * step)
                 (seq 0 (Z.to_nat (Qceiling (stop / step))))).

Fixpoint set_nth {A : Type} (j : nat) (v : A) (l : list A) : list A :=
  match l, j with
  | [], _ => []
  | _ :: l', O => v :: l'
  | x :: l', S j' => x :: set_nth j' v l'
  end.

(** [a[i] = v] on a vector. *)
Definition assign (a : list Q) (i : Z) (v : Q) : option (list Q) :=
  c <- index (length a) i ;; Some (set_nth c v a).

(** [a[i, :]]: a row of a matrix. *)
Definition row (a : list (list Q)) (i : Z) : option (list Q) :=
  r <- index (length a) i ;; nth_error a r.

(** Apply [f] to the rows selected by a boolean mask. *)
Fixpoint on_rows (f : list Q -> list Q) (mask : list bool)
  (a : list (list Q)) : list (list Q) :=
  match mask, a with
  | m :: mask', r :: a' => (if m then f r else r) :: on_rows f mask' a'
  | _, _ => a
  end.

(** [a[mask, j] = v], for a matrix with [ncols] columns. *)
Definition assign_col (ncols : nat) (mask : list bool) (j : Z) (v : Q)
  (a : list (list Q)) : option (list (list Q)) :=
  c <- index ncols j ;; Some (on_rows (set_nth c v) mask a).

Definition fill_tail (v : Q) (r : list Q) : list Q :=
  match r with
  | [] => []
  | x :: tl => x :: map (fun _ => v) tl
  end.

(** [a[mask, 1:] = v]. *)
Definition assign_tail (mask : list bool) (v : Q) (a : list (list Q))
  : list (list Q) :=
  on_rows (fill_tail v) mask a.

Fixpoint vadd (x y : list Q) : list Q :=
  match x, y with
  | a :: x', b :: y' => (a + b) :: vadd x' y'
  | _, _ => []
  end.

Definition add_tail (r e : list Q) : list Q :=
  match r with
  | [] => []
  | x :: tl => x :: vadd tl e
  end.

(** The number of rows a mask selects. *)
Definition count (mask : list bool) : nat := length (filter (fun b => b) mask).

(** Broadcasting of a matrix with [length m] rows to an in-place operand with
    [k] rows: equal row counts fit, a single row is repeated, anything else
    is a ValueError. *)
Definition broadcast_rows (k : nat) (m : list (list Q))
  : option (list (list Q)) :=
  if Nat.eqb (length m) k then Some m
  else match m with
       | [r] => Some (repeat r k)
       | _ => None
       end.

(** Add the rows of [e], in order, to the columns [1:] of the selected rows. *)
Fixpoint add_rows (mask : list bool) (e : list (list Q))
  (a : list (list Q)) : list (list Q) :=
  match mask, a with
  | true :: mask', r :: a' =>
      match e with
      | x :: e' => add_tail r x :: add_rows mask' e' a'
      | [] => r :: add_rows mask' [] a'
      end
  | false :: mask', r :: a' => r :: add_rows mask' e a'
  | _, _ => a
  end.

(** [a[mask, 1:] += e]. *)
Definition iadd_tail (mask : list bool) (e : list (list Q))
  (a : list (list Q)) : option (list (list Q)) :=
  e' <- broadcast_rows (count mask) e ;; Some (add_rows mask e' a).

(** [np.max([x, y])]. *)
Definition max2 (x y : Q) : Q := if Qle_bool x y then y else x.

(** A whole number of magnitude at most 2^50.  Python holds such a number
    exactly, as an int and as a float, and the sums, the comparisons and the
    truncated or rounded-up quotients that the task computes on such numbers
    are those of exact arithmetic: on them [int] of a quotient, [arange] and
    elapsed time accumulated by [t += dt] are in the code what they are
    here.  On other floats the code rounds ([int(0.3/0.1)] is 2) and this
    embedding does not. *)
Definition whole (x : Q) : bool :=
  Qeq_bool x (inject_Z (Qfloor x))
  && Qle_bool (- inject_Z (2 ^ 50)) x
  && Qle_bool x (inject_Z (2 ^ 50)).

End Py.

(** ** What the task takes from its runtime

    The random generators of numpy, the float square root and [str] on
    numbers are outside the file; the development is parametric in them.
    [RandomState] is the state of a numpy generator; every draw returns the
    drawn value and the next state. *)

Class Runtime := {
  RandomState : Type;
  (** one standard normal variate *)
  standard_normal : RandomState -> Q * RandomState;
  (** the index a generator draws for an array of the given length *)
  randint : RandomState -> nat -> nat * RandomState;
  (** [tasktools.trunc_exp(rng, dt, mean, xmin, xmax)] *)
  trunc_exp : RandomState -> Q -> Q -> Q -> Q -> Q * RandomState;
  (** [np.sqrt] *)
  np_sqrt : Q -> Q;
  (** [str] on a number *)
  py_str : Q -> String.string
}.

(** [rng.choice(a)]: the element at the drawn index; an empty array is a
    ValueError. *)
Definition choice `{Runtime} {A : Type} (a : list A) (s : RandomState)
  : option (A * RandomState) :=
  let (i, s') := randint s (length a) in
  x <- nth_error a i ;; Some (x, s').

(** [k] standard normal variates, in drawing order. *)
Fixpoint normals `{Runtime} (k : nat) (g : RandomState)
  : list Q * RandomState :=
  match k with
  | O => ([], g)
  | S k' =>
      let (x, g1) := standard_normal g in
      let (xs, g2) := normals k' g1 in
      (x :: xs, g2)
  end.

Fixpoint normal_rows `{Runtime} (r c : nat) (g : RandomState)
  : list (list Q) * RandomState :=
  match r with
  | O => ([], g)
  | S r' =>
      let (x, g1) := normals c g in
      let (xs, g2) := normal_rows r' c g1 in
      (x :: xs, g2)
  end.

(** [randn(d0, d1)]: a [d0] by [d1] matrix of standard normal variates,
    filled row by row; a negative dimension is a ValueError. *)
Definition randn `{Runtime} (d0 d1 : Z) (g : RandomState)
  : option (list (list Q) * RandomState) :=
  if ((d0 <? 0) || (d1 <? 0))%Z then None
  else Some (normal_rows (Z.to_nat d0) (Z.to_nat d1) g).

(** ** The environment *)

(** The attributes [__init__] sets and nothing changes afterwards. *)
Record Config := {
  dt : Q;
  n : Z;
  choices : list Z;
  cohs : list Q;
  sigma : Q;
  sigma_dt : Q;
  fixation : Q;
  stimulus_min : Q;
  stimulus_mean : Q;
  stimulus_max : Q;
  decision : Q;
  mean_trial_duration : Q;
  max_trial_duration : Q;
  max_steps : Z;
  R_ABORTED : Q;
  R_CORRECT : Q;
  R_FAIL : Q;
  R_MISS : Q;
  abort : bool
}.

(** The attributes [new_trial] sets; they do not exist before its first
    call. *)
Record Trial := {
  tmax : Q;
  fixation_0 : Q;
  fixation_1 : Q;
  stimulus_0 : Q;
  stimulus_1 : Q;
  decision_0 : Q;
  decision_1 : Q;
  ground_truth : Z;
  coh : Q;
  obs : list (list Q);
  t : Q
}.

Record nalt_RDM `{Runtime} := {
  cfg : Config;
  num_tr : Z;
  num_tr_exp : Z;
  rng : RandomState;
  trial : option Trial
}.

(** The keyword arguments [new_trial] looks at. *)
Record kwargs := {
  durs : option (Q * Q * Q);
  gt : option Z;
  kw_coh : option Q
}.

Definition no_kwargs : kwargs :=
  {| durs := None; gt := None; kw_coh := None |}.

(** [np.arange(n_ch) + 1] *)
Definition arange1 (n_ch : Z) : list Z :=
  map (fun i => (Z.of_nat i + 1)%Z) (seq 0 (Z.to_nat n_ch)).

(** Modelled from the spec: the constructor of the base class [ngym.Env] and
    its [seed], which are not part of this source file.  They leave the
    timestep, a trial counter of 0 (no trial generated yet), the bound on the
    number of trials of an experiment and the owned generator; the bound and
    the seeded generator state are arguments here. *)
Definition Env_init `{Runtime} (c : Config) (bound : Z)
  (seeded : RandomState) : nalt_RDM :=
  {| cfg := c; num_tr := 0; num_tr_exp := bound; rng := seeded;
     trial := None |}.

(** [nalt_RDM.__init__(dt, timing, stimEv, n_ch)].  The division by [dt] in
    [max_steps] raises for a zero timestep, and the action and observation
    spaces of gym cannot have a negative size.  The numbers here are finite;
    whether gym accepts the empty action space of [n_ch = -1] is left to
    gym, and no statement below relies on it. *)
Definition __init__ `{Runtime} (dt0 : Q) (timing : Q * Q * Q * Q * Q)
  (stimEv : Q) (n_ch : Z) (bound : Z) (seeded : RandomState)
  : option nalt_RDM :=
  let '(timing0, timing1, timing2, timing3, timing4) := timing in
  let sigma0 := np_sqrt (2 * 100 * (1 # 100)) in
  let max_trial := timing0 + timing3 + timing4 in
  if Qeq_bool dt0 0 then None
  else if (n_ch + 1 <? 0)%Z then None
  else Some (Env_init
    {| dt := dt0;
       n := n_ch;
       choices := arange1 n_ch;
       cohs := map (fun c => c * stimEv)
                   [0; 64 # 10; 128 # 10; 256 # 10; 512 # 10];
       sigma := sigma0;
       sigma_dt := sigma0 / np_sqrt dt0;
       fixation := timing0;
       stimulus_min := Py.max2 timing1 dt0;
       stimulus_mean := timing2;
       stimulus_max := timing3;
       decision := timing4;
       mean_trial_duration := timing0 + timing2 + timing4;
       max_trial_duration := max_trial;
       max_steps := Py.int (max_trial / dt0);
       R_ABORTED := - (1 # 10);
       R_CORRECT := 1;
       R_FAIL := 0;
       R_MISS := 0;
       abort := false |} bound seeded).

Module Str.
Import String.
Local Open Scope string_scope.

Definition nl : string := String (Ascii.ascii_of_nat 10) EmptyString.

Definition bar : string := "XXXXXXXXXXXXXXXXXXXXXX" ++ nl.

Definition warning : string :=
  bar ++ "the duration of all periods must be larger than 0" ++ nl ++ bar.

(** [nalt_RDM.__str__] *)
Definition __str__ `{Runtime} (self : nalt_RDM) : string :=
  let c := cfg self in
  (if Qeq_bool (fixation c) 0 || Qeq_bool (decision c) 0
      || Qeq_bool (stimulus_mean c) 0
   then warning else EmptyString)
  ++ bar
  ++ "Random Dots Motion Task" ++ nl
  ++ "Mean Fixation: " ++ py_str (fixation c) ++ nl
  ++ "Min Stimulus Duration: " ++ py_str (stimulus_min c) ++ nl
  ++ "Mean Stimulus Duration: " ++ py_str (stimulus_mean c) ++ nl
  ++ "Max Stimulus Duration: " ++ py_str (stimulus_max c) ++ nl
  ++ "Decision: " ++ py_str (decision c) ++ nl
  ++ "(time step: " ++ py_str (dt c) ++ nl
  ++ bar.

End Str.

(** ** The trial generator *)

(** The epochs block of [new_trial]: the three durations of the trial and the
    state of the owned generator after drawing them. *)
Definition epochs `{Runtime} (kw : kwargs) (self : nalt_RDM)
  : Q * Q * Q * RandomState :=
  match durs kw with
  | Some (f, s, d) => (f, s, d, rng self)
  | None =>
      let c := cfg self in
      let (stimulus, r) :=
        trunc_exp (rng self) (dt c) (stimulus_mean c) (stimulus_min c)
                  (stimulus_max c) in
      (fixation c, stimulus, decision c, r)
  end.

(** [nalt_RDM.new_trial], called with the keyword arguments [kw]; [g] is the
    state of numpy's process-wide generator before the call, and the result
    carries its state after the call. *)
Definition new_trial `{Runtime} (kw : kwargs) (self : nalt_RDM)
  (g : RandomState) : option (nalt_RDM * RandomState) :=
  let c := cfg self in
  let '(fixation, stimulus, decision, rng1) := epochs kw self in
  let tmax := fixation + stimulus + decision in
  let fixation_0 := 0 in
  let fixation_1 := fixation in
  let stimulus_0 := fixation in
  let stimulus_1 := fixation + stimulus in
  let decision_0 := fixation + stimulus in
  let decision_1 := fixation + stimulus + decision in
  '(ground_truth, rng2) <-
     match gt kw with
     | Some v => Some (v, rng1)
     | None => choice (choices c) rng1
     end ;;
  '(coh, rng3) <-
     match kw_coh kw with
     | Some v => Some (v, rng2)
     | None => choice (cohs c) rng2
     end ;;
  ts <- Py.arange tmax (dt c) ;;
  obs0 <- Py.zeros2 (length ts) (n c + 1) ;;
  let ncols := Z.to_nat (n c + 1) in
  let fixation_period := map (fun x => Py.within fixation_0 x fixation_1) ts in
  let stimulus_period := map (fun x => Py.within stimulus_0 x stimulus_1) ts in
  obs1 <- Py.assign_col ncols fixation_period 0 1 obs0 ;;
  let n_stim := Py.int (stimulus / dt c) in
  obs2 <- Py.assign_col ncols stimulus_period 0 1 obs1 ;;
  let obs3 := Py.assign_tail stimulus_period ((1 - coh / 100) / 2) obs2 in
  obs4 <- Py.assign_col ncols stimulus_period ground_truth
            ((1 + coh / 100) / 2) obs3 ;;
  '(noise, g') <- randn n_stim (n c) g ;;
  obs5 <- Py.iadd_tail stimulus_period
            (map (map (fun z => z * sigma_dt c)) noise) obs4 ;;
  Some ({| cfg := c;
           num_tr := num_tr self + 1;
           num_tr_exp := num_tr_exp self;
           rng := rng3;
           trial := Some {| tmax := tmax;
                            fixation_0 := fixation_0;
                            fixation_1 := fixation_1;
                            stimulus_0 := stimulus_0;
                            stimulus_1 := stimulus_1;
                            decision_0 := decision_0;
                            decision_1 := decision_1;
                            ground_truth := ground_truth;
                            coh := coh;
                            obs := obs5;
                            t := 0 |} |}, g').

(** ** The step function *)

(** Modelled from the spec: [tasktools.new_trial(t, tmax, dt, status, R_MISS,
    R)], which is not part of this source file.  Whenever elapsed time
    reaches or exceeds the total duration of the trial and no action has
    ended the trial, the reward is overridden to the miss reward and the
    trial is forced to end; otherwise reward and status pass through. *)
Definition tasktools_new_trial (t0 tmax0 dt0 : Q) (status : bool)
  (r_miss r : Q) : Q * bool :=
  if Qle_bool tmax0 t0 && negb status then (r_miss, true) else (r, status).

(** The dictionary [_step] returns. *)
Record Info := {
  info_new_trial : bool;
  info_gt : list Q
}.

(** What [_step] returns: [obs, reward, done, info]. *)
Record Result := {
  res_obs : list Q;
  reward : Q;
  done : bool;
  info : Info
}.

(** The branch of [_step] that computes the expected-action vector, the
    reward and the end-of-trial flag from the elapsed time and the action. *)
Definition phase_policy (c : Config) (tr : Trial) (action : Z)
  : option (list Q * Q * bool) :=
  gt0 <- Py.zeros (n c + 1) ;;
  if Py.within (fixation_0 tr) (t tr) (fixation_1 tr) then
    gt1 <- Py.assign gt0 0 1 ;;
    if negb (action =? 0)%Z then Some (gt1, R_ABORTED c, abort c)
    else Some (gt1, 0, false)
  else if Py.within (decision_0 tr) (t tr) (decision_1 tr) then
    gt1 <- Py.assign gt0 (ground_truth tr) 1 ;;
    let reward :=
      if (ground_truth tr =? action)%Z then R_CORRECT c
      else if negb (ground_truth tr =? 0)%Z then R_FAIL c
      else 0 in
    Some (gt1, reward, negb (action =? 0)%Z)
  else
    gt1 <- Py.assign gt0 0 1 ;;
    Some (gt1, 0, false).

(** [self.t += self.dt]; the sum is exact, as it is in the code for whole
    numbers ([Py.whole]). *)
Definition tick (c : Config) (tr : Trial) : Trial :=
  {| tmax := tmax tr;
     fixation_0 := fixation_0 tr;
     fixation_1 := fixation_1 tr;
     stimulus_0 := stimulus_0 tr;
     stimulus_1 := stimulus_1 tr;
     decision_0 := decision_0 tr;
     decision_1 := decision_1 tr;
     ground_truth := ground_truth tr;
     coh := coh tr;
     obs := obs tr;
     t := t tr + dt c |}.

(** The first lines of [_step]: the first trial is generated on demand. *)
Definition start_first_trial `{Runtime} (self : nalt_RDM) (g : RandomState)
  : option (nalt_RDM * RandomState) :=
  if (num_tr self =? 0)%Z then new_trial no_kwargs self g else Some (self, g).

(** [nalt_RDM._step(action)] *)
Definition _step `{Runtime} (action : Z) (self : nalt_RDM) (g : RandomState)
  : option (Result * nalt_RDM * RandomState) :=
  '(self1, g1) <- start_first_trial self g ;;
  let c := cfg self1 in
  tr <- trial self1 ;;
  '(gt1, reward0, new_trial0) <- phase_policy c tr action ;;
  if Qeq_bool (dt c) 0 then None else
  obs1 <- Py.row (obs tr) (Py.int (t tr / dt c)) ;;
  let '(reward1, new_trial1) :=
    tasktools_new_trial (t tr) (tmax tr) (dt c) new_trial0 (R_MISS c)
                        reward0 in
  let self2 := {| cfg := c;
                  num_tr := num_tr self1;
                  num_tr_exp := num_tr_exp self1;
                  rng := rng self1;
                  trial := Some (tick c tr) |} in
  let done1 := (num_tr self2 >? num_tr_exp self2)%Z in
  Some ({| res_obs := obs1;
           reward := reward1;
           done := done1;
           info := {| info_new_trial := new_trial1; info_gt := gt1 |} |},
        self2, g1).

(** [nalt_RDM.step(action)] *)
Definition step `{Runtime} (action : Z) (self : nalt_RDM) (g : RandomState)
  : option (Result * nalt_RDM * RandomState) :=
  '(r, self1, g1) <- _step action self g ;;
  if info_new_trial (info r) then
    '(self2, g2) <- new_trial no_kwargs self1 g1 ;; Some (r, self2, g2)
  else Some (r, self1, g1).

(** ** A deterministic runtime, to run the model on concrete inputs

    The generator state is a counter.  The draws are simple functions of the
    counter; [trunc_exp] returns [xmax] when [xmin >= xmax] and otherwise the
    mean clipped to [[xmin, xmax]]; the square root is the integer square root
    of numerator and denominator. *)

Module Demo.

Definition demo_normal (s : nat) : Q * nat :=
  ((Z.of_nat (s mod 7) - 3) # 4, S s).

Definition demo_randint (s k : nat) : nat * nat := (s mod k, S s)%nat.

Definition demo_trunc_exp (s : nat) (dt0 mean xmin xmax : Q) : Q * nat :=
  (if Qle_bool xmax xmin then xmax
   else Py.max2 xmin (if Qle_bool mean xmax then mean else xmax), S s).

Definition demo_sqrt (x : Q) : Q := Z.sqrt (Qnum x) # Pos.sqrt (Qden x).

Definition demo_str (x : Q) : String.string :=
  String.String (Ascii.ascii_of_nat (if Qle_bool 0 x then 43 else 45))
                String.EmptyString.

#[export] Instance runtime : Runtime := {|
  RandomState := nat;
  standard_normal := demo_normal;
  randint := demo_randint;
  trunc_exp := demo_trunc_exp;
  np_sqrt := demo_sqrt;
  py_str := demo_str
|}.

(** The scenario of the specification: three choices, a timestep of 100, a
    fixation of 100, a stimulus of 200 and a decision window of 200, with
    ground truth 2. *)
Definition scenario_kw : kwargs :=
  {| durs := Some (100, 200, 200); gt := Some 2%Z; kw_coh := Some (64 # 10) |}.

Definition env0 : option nalt_RDM :=
  __init__ 100 (100, 200, 200, 200, 200) 1 3 10 0%nat.

(** The environment after construction and [new_trial] with the scenario's
    overrides, numpy's generator being in state [g]. *)
Definition scenario (g : nat) : option (nalt_RDM * nat) :=
  e <- env0 ;; new_trial scenario_kw e g.

(** Feed a list of actions to [_step], keeping the last result. *)
Fixpoint run (actions : list Z) (w : nalt_RDM * nat)
  : option (list Result * nalt_RDM * nat) :=
  match actions with
  | [] => Some ([], fst w, snd w)
  | a :: rest =>
      '(r, e, g) <- _step a (fst w) (snd w) ;;
      '(rs, e', g') <- run rest (e, g) ;;
      Some (r :: rs, e', g')
  end.



(** The scenario after [k] calls of [_step] with action 0. *)
Definition holding (k : nat) : option (nalt_RDM * nat) :=
  w <- scenario 0 ;;
  '(_, e, g) <- run (repeat 0%Z k) w ;;
  Some (e, g).

End Demo.

(** ** Invariants of a trial *)

(** The timing invariant of the data model, as a check on the attributes of
    a trial: a positive timestep, at least the fixation entry in the
    vectors, the three intervals in order and adjacent from 0 to [tmax], one
    observation row per timestep of the trial, and no negative elapsed time. *)
Definition well_formed (c : Config) (tr : Trial) : bool :=
  Py.Qltb 0 (dt c)
  && (0 <=? n c)%Z
  && Qeq_bool (fixation_0 tr) 0
  && Qle_bool (fixation_0 tr) (fixation_1 tr)
  && Qeq_bool (stimulus_0 tr) (fixation_1 tr)
  && Qle_bool (stimulus_0 tr) (stimulus_1 tr)
  && Qeq_bool (decision_0 tr) (stimulus_1 tr)
  && Qle_bool (decision_0 tr) (decision_1 tr)
  && Qeq_bool (tmax tr) (decision_1 tr)
  && Nat.eqb (length (obs tr)) (Z.to_nat (Qceiling (tmax tr / dt c)))
  && Qle_bool 0 (t tr).

(** The ground truth is one of the choices [1..n]. *)
Definition valid_target (c : Config) (tr : Trial) : bool :=
  (1 <=? ground_truth tr)%Z && (ground_truth tr <=? n c)%Z.

(** Elapsed time is a whole number of timesteps. *)
Definition on_grid (c : Config) (tr : Trial) : Prop :=
  exists k : nat, t tr == inject_Z (Z.of_nat k) * dt c.

(** A vector that is 1 at position [hot] and 0 everywhere else. *)
Definition one_hot (v : list Q) (hot : nat) : Prop :=
  (hot < length v)%nat /\
  forall j, (j < length v)%nat -> nth j v 0 = if Nat.eqb j hot then 1 else 0.

(** The environment in which [_step] evaluates an action: the one it was
    called on, or the one with a first trial if none had been generated. *)
Definition stepping `{Runtime} (self : nalt_RDM) (g : RandomState)
  (self1 : nalt_RDM) (g1 : RandomState) (tr : Trial) : Prop :=
  start_first_trial self g = Some (self1, g1) /\ trial self1 = Some tr.

(** The vector [_step] returns in [info['gt']] when position [i] is marked. *)
Definition marked (c : Config) (i : nat) : list Q :=
  Py.set_nth i 1 (repeat 0 (Z.to_nat (n c + 1))).

(** ** The content of the observation matrix *)

(** The time of row [i] of the observation matrix. *)
Definition time_of (c : Config) (i : nat) : Q :=
  inject_Z (Z.of_nat i) * dt c.

(** The rows of the observation matrix of a trial whose time is inside the
    stimulus interval. *)
Definition stimulus_rows (c : Config) (tr : Trial) : list bool :=
  map (fun i => Py.within (stimulus_0 tr) (time_of c i) (stimulus_1 tr))
      (seq 0 (length (obs tr))).


(** The observation matrix of [new_trial] before the noise is added, for the
    times [ts], a fixation of [f], a stimulus of [s], the ground truth in
    column [cg] and coherence [coh0]. *)
Definition noise_free (ncols : nat) (ts : list Q) (f s : Q) (cg : nat)
  (coh0 : Q) : list (list Q) :=
  let fixation_period := map (fun x => Py.within 0 x f) ts in
  let stimulus_period := map (fun x => Py.within f x (f + s)) ts in
  Py.on_rows (Py.set_nth cg ((1 + coh0 / 100) / 2)) stimulus_period
    (Py.on_rows (Py.fill_tail ((1 - coh0 / 100) / 2)) stimulus_period
      (Py.on_rows (Py.set_nth 0 1) stimulus_period
        (Py.on_rows (Py.set_nth 0 1) fixation_period
          (repeat (repeat 0 ncols) (length ts))))).

(** ** Consecutive calls *)

(** One call of [_step] per action of the list, each on the environment the
    previous call left; the results are collected in order, and an exception
    in any call ends the run. *)
Fixpoint steps `{Runtime} (actions : list Z) (self : nalt_RDM)
  (g : RandomState) : option (list Result * nalt_RDM * RandomState) :=
  match actions with
  | [] => Some ([], self, g)
  | action :: rest =>
      '(r, self1, g1) <- _step action self g ;;
      '(rs, self2, g2) <- steps rest self1 g1 ;;
      Some (r :: rs, self2, g2)
  end.

(** * Properties *)

(** * Comparisons and rounding *)

Lemma Qltb_iff (x y : Q) : Py.Qltb x y = true <-> x < y.
Proof.
  unfold Py.Qltb. rewrite negb_true_iff. split; intro E.
  - apply Qnot_le_lt. intro L. apply Qle_bool_iff in L. congruence.
  - destruct (Qle_bool y x) eqn:B; [|reflexivity].
    apply Qle_bool_iff in B. lra.
Qed.

Lemma within_iff (lo x hi : Q) :
  Py.within lo x hi = true <-> lo <= x /\ x < hi.
Proof.
  unfold Py.within. rewrite andb_true_iff, Qle_bool_iff, Qltb_iff. tauto.
Qed.

Lemma within_false (lo x hi : Q) :
  x < lo \/ hi <= x -> Py.within lo x hi = false.
Proof.
  intro E. destruct (Py.within lo x hi) eqn:W; [|reflexivity].
  apply within_iff in W. lra.
Qed.

Lemma int_floor (x : Q) : 0 <= x -> Py.int x = Qfloor x.
Proof.
  destruct x as [p q]. unfold Py.int, Qfloor, Qle. cbn. intro E.
  apply Z.quot_div_nonneg; lia.
Qed.

Lemma Qdiv_nonneg (x z : Q) : 0 <= x -> 0 < z -> 0 <= x / z.
Proof. intros. apply Qle_shift_div_l; lra. Qed.

Lemma Qdiv_lt_mono (x y z : Q) : 0 < z -> x < y -> x / z < y / z.
Proof.
  intros Z L. unfold Qdiv. apply Qmult_lt_compat_r; [|exact L].
  now apply Qinv_lt_0_compat.
Qed.

Lemma Qdiv_le_mono (x y z : Q) : 0 < z -> x <= y -> x / z <= y / z.
Proof.
  intros Z L. unfold Qdiv. apply Qmult_le_compat_r; [exact L|].
  apply Qlt_le_weak. now apply Qinv_lt_0_compat.
Qed.

(** The row of timestep [t] exists while [t] is inside the trial. *)
Lemma floor_below_ceiling (x y d : Q) :
  0 < d -> 0 <= x -> x < y ->
  (0 <= Qfloor (x / d) < Qceiling (y / d))%Z.
Proof.
  intros D X L. split.
  - rewrite <- (Qfloor_Z 0). apply Qfloor_resp_le. now apply Qdiv_nonneg.
  - rewrite Zlt_Qlt.
    apply Qle_lt_trans with (x / d); [apply Qfloor_le|].
    apply Qlt_le_trans with (y / d); [now apply Qdiv_lt_mono|].
    apply Qle_ceiling.
Qed.

(** On the grid, a time at or after [y] is at or after its last row. *)
Lemma grid_beyond_ceiling (k : nat) (x y d : Q) :
  0 < d -> x == inject_Z (Z.of_nat k) * d -> y <= x ->
  Py.int (x / d) = Z.of_nat k /\ (Qceiling (y / d) <= Z.of_nat k)%Z.
Proof.
  intros D E L.
  assert (K : x / d == inject_Z (Z.of_nat k)).
  { rewrite E. field. lra. }
  split.
  - rewrite int_floor.
    + rewrite (Qfloor_comp _ _ K). apply Qfloor_Z.
    + rewrite K. change 0 with (inject_Z 0). rewrite <- Zle_Qle. lia.
  - rewrite <- (Qceiling_Z (Z.of_nat k)).
    apply Qceiling_resp_le. rewrite <- K. now apply Qdiv_le_mono.
Qed.

(** * Vectors *)

Lemma set_nth_length {A : Type} (j : nat) (v : A) (l : list A) :
  length (Py.set_nth j v l) = length l.
Proof.
  revert j. induction l as [|x l IH]; intros [|j]; cbn; auto.
Qed.

Lemma set_nth_nth {A : Type} (j k : nat) (v d : A) (l : list A) :
  (j < length l)%nat ->
  nth k (Py.set_nth j v l) d = if Nat.eqb k j then v else nth k l d.
Proof.
  revert j k. induction l as [|x l IH]; intros j k L; cbn in L; [lia|].
  destruct j as [|j], k as [|k]; cbn; auto.
  apply IH. lia.
Qed.

Lemma index_inside (len : nat) (i : Z) :
  (0 <= i < Z.of_nat len)%Z -> Py.index len i = Some (Z.to_nat i).
Proof.
  intros [L U]. unfold Py.index.
  apply Z.leb_le in L. apply Z.ltb_lt in U. now rewrite L, U.
Qed.

Lemma index_beyond (len : nat) (i : Z) :
  (Z.of_nat len <= i)%Z -> Py.index len i = None.
Proof.
  intro L. unfold Py.index.
  assert (P : (0 <=? i)%Z = true) by (apply Z.leb_le; lia).
  assert (U : (i <? Z.of_nat len)%Z = false) by (apply Z.ltb_ge; lia).
  now rewrite P, U.
Qed.

Lemma marked_one_hot (c : Config) (i : nat) :
  (Z.of_nat i <= n c)%Z ->
  length (marked c i) = Z.to_nat (n c + 1) /\ one_hot (marked c i) i.
Proof.
  intro L. unfold marked, one_hot.
  rewrite set_nth_length, repeat_length.
  repeat split; [lia|]. intros j J.
  rewrite set_nth_nth by (rewrite repeat_length; lia).
  destruct (Nat.eqb j i); [reflexivity|].
  apply nth_repeat.
Qed.

Lemma zeros_vector (c : Config) :
  (0 <= n c)%Z -> Py.zeros (n c + 1) = Some (repeat 0 (Z.to_nat (n c + 1))).
Proof.
  intro L. unfold Py.zeros.
  assert (P : (n c + 1 <? 0)%Z = false) by (apply Z.ltb_ge; lia).
  now rewrite P.
Qed.

Lemma assign_marked (c : Config) (i : Z) :
  (0 <= i <= n c)%Z ->
  Py.assign (repeat 0 (Z.to_nat (n c + 1))) i 1 = Some (marked c (Z.to_nat i)).
Proof.
  intro L. unfold Py.assign, marked.
  rewrite repeat_length, index_inside by lia. reflexivity.
Qed.

(** * The phase policy *)

Lemma well_formed_spec (c : Config) (tr : Trial) :
  well_formed c tr = true ->
  0 < dt c /\ (0 <= n c)%Z /\
  fixation_0 tr == 0 /\ fixation_0 tr <= fixation_1 tr /\
  stimulus_0 tr == fixation_1 tr /\ stimulus_0 tr <= stimulus_1 tr /\
  decision_0 tr == stimulus_1 tr /\ decision_0 tr <= decision_1 tr /\
  tmax tr == decision_1 tr /\
  length (obs tr) = Z.to_nat (Qceiling (tmax tr / dt c)) /\
  0 <= t tr.
Proof.
  unfold well_formed. rewrite !andb_true_iff.
  rewrite Qltb_iff, Z.leb_le, !Qeq_bool_iff, !Qle_bool_iff, Nat.eqb_eq.
  tauto.
Qed.

Section Policy.

Variables (c : Config) (tr : Trial) (action : Z).
Hypothesis WF : well_formed c tr = true.

Lemma policy_fixation :
  fixation_0 tr <= t tr < fixation_1 tr ->
  phase_policy c tr action
  = Some (marked c 0,
          if negb (action =? 0)%Z then R_ABORTED c else 0,
          if negb (action =? 0)%Z then abort c else false).
Proof.
  intro T. apply well_formed_spec in WF as (_ & N & _).
  unfold phase_policy. rewrite zeros_vector by exact N. cbn [bind].
  rewrite (proj2 (within_iff _ _ _) T).
  rewrite assign_marked by lia. cbn [bind].
  now destruct (negb (action =? 0)%Z).
Qed.

Lemma policy_decision :
  (0 <= ground_truth tr <= n c)%Z ->
  decision_0 tr <= t tr < decision_1 tr ->
  phase_policy c tr action
  = Some (marked c (Z.to_nat (ground_truth tr)),
          if (ground_truth tr =? action)%Z then R_CORRECT c
          else if negb (ground_truth tr =? 0)%Z then R_FAIL c else 0,
          negb (action =? 0)%Z).
Proof.
  intros G T.
  apply well_formed_spec in WF as (_ & N & F0 & F & S0 & S & D0 & D & _).
  unfold phase_policy. rewrite zeros_vector by exact N. cbn [bind].
  rewrite within_false by lra.
  rewrite (proj2 (within_iff _ _ _) T).
  rewrite assign_marked by lia. reflexivity.
Qed.

Lemma policy_elsewhere :
  t tr < fixation_0 tr \/ fixation_1 tr <= t tr ->
  t tr < decision_0 tr \/ decision_1 tr <= t tr ->
  phase_policy c tr action = Some (marked c 0, 0, false).
Proof.
  intros F D. apply well_formed_spec in WF as (_ & N & _).
  unfold phase_policy. rewrite zeros_vector by exact N. cbn [bind].
  rewrite !within_false by assumption.
  rewrite assign_marked by lia. reflexivity.
Qed.

End Policy.

(** * One call of [_step] *)

Section Step.

Context `{Runtime}.
Variables (self : nalt_RDM) (g : RandomState).
Variables (self1 : nalt_RDM) (g1 : RandomState) (tr : Trial).
Hypothesis START : stepping self g self1 g1 tr.
Hypothesis WF : well_formed (cfg self1) tr = true.

(** Inside the trial the observation row exists and the helper passes the
    reward and the flag of the phase policy through. *)
Lemma _step_inside (action : Z) (v : list Q) (r0 : Q) (b0 : bool) :
  t tr < tmax tr ->
  phase_policy (cfg self1) tr action = Some (v, r0, b0) ->
  exists r self2,
    _step action self g = Some (r, self2, g1) /\
    reward r = r0 /\ info_new_trial (info r) = b0 /\ info_gt (info r) = v.
Proof.
  intros T P. destruct START as [S1 S2].
  pose proof (well_formed_spec _ _ WF)
    as (D & _ & _ & _ & _ & _ & _ & _ & _ & L & T0).
  unfold _step. rewrite S1. cbn [bind]. rewrite S2. cbn [bind].
  rewrite P. cbn [bind].
  assert (Z0 : Qeq_bool (dt (cfg self1)) 0 = false).
  { destruct (Qeq_bool (dt (cfg self1)) 0) eqn:E; [|reflexivity].
    apply Qeq_bool_iff in E. lra. }
  rewrite Z0.
  pose proof (floor_below_ceiling _ _ _ D T0 T) as B.
  unfold Py.row. rewrite int_floor by (now apply Qdiv_nonneg).
  rewrite index_inside by (rewrite L; lia). cbn [bind].
  destruct (nth_error (obs tr) (Z.to_nat (Qfloor (t tr / dt (cfg self1)))))
    as [o|] eqn:O.
  2:{ apply nth_error_None in O. rewrite L in O. lia. }
  cbn [bind]. unfold tasktools_new_trial.
  assert (M : Qle_bool (tmax tr) (t tr) = false).
  { destruct (Qle_bool (tmax tr) (t tr)) eqn:E; [|reflexivity].
    apply Qle_bool_iff in E. lra. }
  rewrite M. cbn [andb]. eexists _, _. split; [reflexivity|].
  cbn. auto.
Qed.

(** On the grid, at or after the end of the trial, the observation row does
    not exist: the indexing raises before the helper is reached. *)
Lemma _step_beyond (action : Z) :
  on_grid (cfg self1) tr -> tmax tr <= t tr ->
  _step action self g = None.
Proof.
  intros [k K] T. destruct START as [S1 S2].
  pose proof (well_formed_spec _ _ WF)
    as (D & _ & _ & _ & _ & _ & _ & _ & _ & L & T0).
  unfold _step. rewrite S1. cbn [bind]. rewrite S2. cbn [bind].
  destruct (phase_policy (cfg self1) tr action) as [[[v r0] b0]|];
    [|reflexivity].
  cbn [bind]. destruct (Qeq_bool (dt (cfg self1)) 0); [reflexivity|].
  destruct (grid_beyond_ceiling k _ _ _ D K T) as [I C].
  unfold Py.row. rewrite I, index_beyond by (rewrite L; lia).
  reflexivity.
Qed.

End Step.

Lemma bind_some {A B : Type} (m : option A) (k : A -> option B) (b : B) :
  bind m k = Some b -> exists a, m = Some a /\ k a = Some b.
Proof. destruct m as [a|]; cbn; [eauto | discriminate]. Qed.

(** Whatever [_step] returns, its [info['gt']] is the vector of the phase
    policy. *)
Lemma _step_gt `{Runtime} (self : nalt_RDM) (g : RandomState)
  (self1 : nalt_RDM) (g1 : RandomState) (tr : Trial) (action : Z)
  (r : Result) (self2 : nalt_RDM) (g2 : RandomState) :
  stepping self g self1 g1 tr ->
  _step action self g = Some (r, self2, g2) ->
  exists r0 b0,
    phase_policy (cfg self1) tr action = Some (info_gt (info r), r0, b0).
Proof.
  intros [S1 S2] E. unfold _step in E. rewrite S1 in E. cbn [bind] in E.
  rewrite S2 in E. cbn [bind] in E.
  destruct (phase_policy (cfg self1) tr action) as [[[v r0] b0]|];
    [|discriminate].
  cbn [bind] in E. destruct (Qeq_bool (dt (cfg self1)) 0); [discriminate|].
  apply bind_some in E as (o & _ & E).
  destruct (tasktools_new_trial _ _ _ _ _ _) as [r1 b1].
  injection E as <- _ _. cbn. eauto.
Qed.

(** The phase policy looks at the action only through the two tests
    [action != 0] and [ground_truth == action]. *)
Lemma policy_depends_on (c : Config) (tr : Trial) (a b : Z) :
  (a =? 0)%Z = (b =? 0)%Z ->
  (ground_truth tr =? a)%Z = (ground_truth tr =? b)%Z ->
  phase_policy c tr a = phase_policy c tr b.
Proof.
  intros E0 EG. unfold phase_policy.
  destruct (Py.zeros (n c + 1)) as [gt0|]; [|reflexivity]. cbn [bind].
  destruct (Py.within (fixation_0 tr) (t tr) (fixation_1 tr)).
  - destruct (Py.assign gt0 0 1); [|reflexivity]. cbn [bind].
    now rewrite E0.
  - destruct (Py.within (decision_0 tr) (t tr) (decision_1 tr));
      [|reflexivity].
    destruct (Py.assign gt0 (ground_truth tr) 1); [|reflexivity].
    cbn [bind]. now rewrite E0, EG.
Qed.

Section Rewards.

Context `{Runtime}.
Variables (self : nalt_RDM) (g : RandomState).
Variables (self1 : nalt_RDM) (g1 : RandomState) (tr : Trial).
Hypothesis START : stepping self g self1 g1 tr.
Hypothesis WF : well_formed (cfg self1) tr = true.

(** C2.  In the decision interval the reward is the correct reward when the
    action equals the ground truth and the failure reward otherwise (the
    ground truth being one of the choices, hence non-zero); a non-zero action
    ends the trial whether it is correct or not, and action 0 does not. *)
Theorem decision_reward_and_trial_end (action : Z) :
  valid_target (cfg self1) tr = true ->
  decision_0 tr <= t tr < decision_1 tr ->
  exists r self2,
    _step action self g = Some (r, self2, g1) /\
    (action = ground_truth tr -> reward r = R_CORRECT (cfg self1)) /\
    (action <> ground_truth tr -> reward r = R_FAIL (cfg self1)) /\
    (action <> 0%Z -> info_new_trial (info r) = true) /\
    (action = 0%Z -> info_new_trial (info r) = false).
Proof.
  intros V T. unfold valid_target in V.
  apply andb_true_iff in V as [V1 V2].
  apply Z.leb_le in V1. apply Z.leb_le in V2.
  pose proof (well_formed_spec _ _ WF) as W.
  assert (T' : t tr < tmax tr) by lra.
  pose proof (policy_decision _ _ action WF ltac:(lia) T) as P.
  destruct (_step_inside self g self1 g1 tr START WF action _ _ _ T' P)
    as (r & self2 & E & R & B & _).
  exists r, self2. split; [exact E|]. rewrite R, B.
  repeat split.
  - intros ->. now rewrite Z.eqb_refl.
  - intro N. destruct (Z.eqb_spec (ground_truth tr) action); [congruence|].
    destruct (Z.eqb_spec (ground_truth tr) 0); [lia|reflexivity].
  - intro N. now destruct (Z.eqb_spec action 0).
  - intros ->. reflexivity.
Qed.

(** C9.  A non-zero action in the fixation interval pays the abort penalty,
    and the trial is signalled as ended exactly when the [abort] flag of the
    configuration is set; the constructor leaves the flag unset, so that by
    default the penalty is paid and the trial goes on. *)
Theorem abort_during_fixation (action : Z) :
  fixation_0 tr <= t tr < fixation_1 tr ->
  action <> 0%Z ->
  (exists r self2,
     _step action self g = Some (r, self2, g1) /\
     reward r = R_ABORTED (cfg self1) /\
     (info_new_trial (info r) = true <-> abort (cfg self1) = true)) /\
  (forall dt0 timing stimEv n_ch bound seeded e,
     __init__ dt0 timing stimEv n_ch bound seeded = Some e ->
     abort (cfg e) = false).
Proof.
  intros T N. split.
  - pose proof (well_formed_spec _ _ WF) as W.
    assert (T' : t tr < tmax tr) by lra.
    pose proof (policy_fixation _ _ action WF T) as P.
    destruct (_step_inside self g self1 g1 tr START WF action _ _ _ T' P)
      as (r & self2 & E & R & B & _).
    exists r, self2. split; [exact E|]. rewrite R, B.
    destruct (Z.eqb_spec action 0); [contradiction|]. cbn. tauto.
  - intros dt0 [[[[t0 t1] t2] t3] t4] stimEv n_ch bound seeded e E.
    unfold __init__ in E.
    destruct (Qeq_bool dt0 0); [discriminate|].
    destruct (n_ch + 1 <? 0)%Z; [discriminate|].
    injection E as <-. reflexivity.
Qed.

(** C1, as the code has it.  In the stimulus interval no action is
    penalised: whatever the action, the reward is 0 and no abort or end of
    trial is flagged, and action 0 is the one marked as expected. *)
Theorem stimulus_action_not_penalised (action : Z) :
  stimulus_0 tr <= t tr < stimulus_1 tr ->
  exists r self2,
    _step action self g = Some (r, self2, g1) /\
    reward r = 0 /\
    info_new_trial (info r) = false /\
    one_hot (info_gt (info r)) 0.
Proof.
  intro T. pose proof (well_formed_spec _ _ WF) as W.
  assert (T' : t tr < tmax tr) by lra.
  pose proof (policy_elsewhere _ _ action WF ltac:(lra) ltac:(lra)) as P.
  destruct (_step_inside self g self1 g1 tr START WF action _ _ _ T' P)
    as (r & self2 & E & R & B & V).
  exists r, self2. rewrite V. repeat split; try assumption;
    apply (marked_one_hot (cfg self1) 0); cbn; tauto.
Qed.

(** C8, as the code has it.  An action outside [0..n] is not rejected: inside
    the trial [_step] returns normally and treats it as any other non-zero
    action that is not the ground truth. *)
Theorem out_of_range_action_processed (action : Z) :
  valid_target (cfg self1) tr = true ->
  (action < 0 \/ n (cfg self1) < action)%Z ->
  t tr < tmax tr ->
  (exists r self2,
     _step action self g = Some (r, self2, g1) /\
     (fixation_0 tr <= t tr < fixation_1 tr ->
      reward r = R_ABORTED (cfg self1) /\
      info_new_trial (info r) = abort (cfg self1)) /\
     (stimulus_0 tr <= t tr < stimulus_1 tr ->
      reward r = 0 /\ info_new_trial (info r) = false) /\
     (decision_0 tr <= t tr < decision_1 tr ->
      reward r = R_FAIL (cfg self1) /\ info_new_trial (info r) = true)) /\
  (forall other, other <> 0%Z -> other <> ground_truth tr ->
     _step other self g = _step action self g).
Proof.
  intros V O T. unfold valid_target in V.
  apply andb_true_iff in V as [V1 V2].
  apply Z.leb_le in V1. apply Z.leb_le in V2.
  pose proof (well_formed_spec _ _ WF) as W.
  assert (A0 : (action =? 0)%Z = false) by (apply Z.eqb_neq; lia).
  assert (AG : (ground_truth tr =? action)%Z = false)
    by (apply Z.eqb_neq; lia).
  assert (G0 : (ground_truth tr =? 0)%Z = false) by (apply Z.eqb_neq; lia).
  split.
  - destruct (phase_policy (cfg self1) tr action) as [[[v r0] b0]|] eqn:P.
    2:{ destruct (Qlt_le_dec (t tr) (fixation_1 tr)) as [F|F].
        - rewrite policy_fixation in P by (assumption || lra). discriminate.
        - destruct (Qlt_le_dec (t tr) (decision_0 tr)) as [D|D].
          + rewrite policy_elsewhere in P by (assumption || lra).
            discriminate.
          + rewrite policy_decision in P by (assumption || lra || lia).
            discriminate. }
    destruct (_step_inside self g self1 g1 tr START WF action v r0 b0 T P)
      as (r & self2 & E & R & B & _).
    exists r, self2. split; [exact E|]. rewrite R, B.
    split; [|split]; intro I.
    + rewrite policy_fixation in P by assumption.
      rewrite A0 in P. cbn in P. injection P as _ <- <-. auto.
    + rewrite policy_elsewhere in P by (assumption || lra).
      injection P as _ <- <-. auto.
    + rewrite policy_decision in P by (assumption || lia).
      rewrite AG, G0, A0 in P. cbn in P. injection P as _ <- <-. auto.
  - intros other N0 NG.
    assert (B0 : (other =? 0)%Z = false) by (now apply Z.eqb_neq).
    assert (BG : (ground_truth tr =? other)%Z = false)
      by (apply Z.eqb_neq; congruence).
    destruct START as [S1 S2]. unfold _step.
    rewrite S1. cbn [bind]. rewrite S2. cbn [bind].
    rewrite (policy_depends_on _ tr other action); congruence.
Qed.

(** C10.  The vector [info['gt']] that a call of [_step] returns has length
    [n+1] and is one-hot: the entry of the ground truth is the hot one while
    elapsed time is in the decision interval, entry 0 at any other time; and
    the call does return at every time inside the trial. *)
Theorem info_gt_one_hot (action : Z) :
  valid_target (cfg self1) tr = true ->
  (t tr < tmax tr -> exists r self2, _step action self g = Some (r, self2, g1))
  /\
  (forall r self2 g2,
     _step action self g = Some (r, self2, g2) ->
     length (info_gt (info r)) = Z.to_nat (n (cfg self1) + 1) /\
     (decision_0 tr <= t tr < decision_1 tr ->
      one_hot (info_gt (info r)) (Z.to_nat (ground_truth tr))) /\
     (t tr < decision_0 tr \/ decision_1 tr <= t tr ->
      one_hot (info_gt (info r)) 0)).
Proof.
  intro V. unfold valid_target in V.
  apply andb_true_iff in V as [V1 V2].
  apply Z.leb_le in V1. apply Z.leb_le in V2.
  pose proof (well_formed_spec _ _ WF) as W.
  assert (P : exists i : nat,
    (Z.of_nat i <= n (cfg self1))%Z /\
    (decision_0 tr <= t tr < decision_1 tr -> i = Z.to_nat (ground_truth tr)) /\
    (t tr < decision_0 tr \/ decision_1 tr <= t tr -> i = 0%nat) /\
    exists r0 b0,
      phase_policy (cfg self1) tr action = Some (marked (cfg self1) i, r0, b0)).
  { destruct (Qlt_le_dec (t tr) (fixation_1 tr)) as [F|F].
    - exists 0%nat. repeat split; try lia; try lra.
      rewrite policy_fixation by (assumption || lra). eauto.
    - destruct (Qlt_le_dec (t tr) (decision_0 tr)) as [D|D].
      + exists 0%nat. repeat split; try lia; try lra.
        rewrite policy_elsewhere by (assumption || lra). eauto.
      + destruct (Qlt_le_dec (t tr) (decision_1 tr)) as [E|E].
        * exists (Z.to_nat (ground_truth tr)).
          repeat split; try lia; try lra.
          rewrite policy_decision by (assumption || lra || lia). eauto.
        * exists 0%nat. repeat split; try lia; try lra.
          rewrite policy_elsewhere by (assumption || lra). eauto. }
  destruct P as (i & I & ID & IO & r0 & b0 & P). split.
  - intro T.
    destruct (_step_inside self g self1 g1 tr START WF action _ _ _ T P)
      as (r & self2 & E & _). eauto.
  - intros r self2 g2 E.
    destruct (_step_gt _ _ _ _ _ _ _ _ _ START E) as (r1 & b1 & P').
    rewrite P in P'. injection P' as <- _ _.
    destruct (marked_one_hot (cfg self1) i I) as [L O].
    split; [exact L|split]; intro T.
    + rewrite <- (ID T). exact O.
    + rewrite <- (IO T). exact O.
Qed.

End Rewards.

(** * Masked updates of a matrix *)

Lemma on_rows_length (f : list Q -> list Q) (mask : list bool)
  (a : list (list Q)) : length (Py.on_rows f mask a) = length a.
Proof.
  revert a. induction mask as [|m mask IH]; intros [|r a]; cbn; auto.
Qed.

Lemma on_rows_nth_error (f : list Q -> list Q) (mask : list bool)
  (a : list (list Q)) (i : nat) (m : bool) (r : list Q) :
  nth_error mask i = Some m -> nth_error a i = Some r ->
  nth_error (Py.on_rows f mask a) i = Some (if m then f r else r).
Proof.
  revert a i. induction mask as [|m0 mask IH]; intros [|r0 a] [|i]; cbn;
    try discriminate.
  - now intros [= ->] [= ->].
  - apply IH.
Qed.

Lemma add_rows_length (mask : list bool) (e a : list (list Q)) :
  length (Py.add_rows mask e a) = length a.
Proof.
  revert e a.
  induction mask as [|[|] mask IH]; intros [|x e] [|r a]; cbn;
    rewrite ?IH; reflexivity.
Qed.

Lemma add_rows_skip (mask : list bool) (e a : list (list Q)) (i : nat)
  (r : list Q) :
  nth_error mask i = Some false -> nth_error a i = Some r ->
  nth_error (Py.add_rows mask e a) i = Some r.
Proof.
  revert e a i.
  induction mask as [|[|] mask IH]; intros [|x e] [|r0 a] [|i]; cbn;
    try discriminate; try (intros _ [= ->]; reflexivity); apply IH.
Qed.



Lemma broadcast_rows_spec (k : nat) (m e : list (list Q)) (P : list Q -> Prop) :
  Py.broadcast_rows k m = Some e -> Forall P m ->
  length e = k /\ Forall P e.
Proof.
  unfold Py.broadcast_rows. intros B F.
  destruct (Nat.eqb_spec (length m) k) as [L|L].
  - injection B as <-. auto.
  - destruct m as [|r [|? ?]]; try discriminate. injection B as <-.
    rewrite repeat_length. split; [reflexivity|].
    apply Forall_forall. intros x I. apply repeat_spec in I as ->.
    now inversion F.
Qed.

(** * The noise matrix *)

Lemma normals_length `{Runtime} (k : nat) (g : RandomState) :
  length (fst (normals k g)) = k.
Proof.
  revert g. induction k as [|k IH]; intro g; cbn; [reflexivity|].
  destruct (standard_normal g) as [x g1]. specialize (IH g1).
  destruct (normals k g1) as [xs g2]. cbn in *. now rewrite IH.
Qed.

Lemma normal_rows_shape `{Runtime} (r c : nat) (g : RandomState) :
  length (fst (normal_rows r c g)) = r /\
  Forall (fun x => length x = c) (fst (normal_rows r c g)).
Proof.
  revert g. induction r as [|r IH]; intro g; cbn; [auto|].
  pose proof (normals_length c g) as L.
  destruct (normals c g) as [x g1]. specialize (IH g1).
  destruct (normal_rows r c g1) as [xs g2]. cbn in *.
  destruct IH as [IH1 IH2]. split; [now rewrite IH1|].
  constructor; assumption.
Qed.

(** * Rows of the observation matrix *)



(** * What a successful [new_trial] has computed *)

Lemma new_trial_inv `{Runtime} (kw : kwargs) (self : nalt_RDM)
  (g : RandomState) (e : nalt_RDM) (g' : RandomState) (f s d : Q)
  (r1 : RandomState) :
  epochs kw self = (f, s, d, r1) ->
  new_trial kw self g = Some (e, g') ->
  exists gt0 coh0 r3 ts cg raw noise,
    Py.arange (f + s + d) (dt (cfg self)) = Some ts /\
    (0 <= n (cfg self))%Z /\
    Py.index (Z.to_nat (n (cfg self) + 1)) gt0 = Some cg /\
    randn (Py.int (s / dt (cfg self))) (n (cfg self)) g = Some (raw, g') /\
    Py.broadcast_rows
      (Py.count (map (fun x => Py.within f x (f + s)) ts))
      (map (map (fun z => z * sigma_dt (cfg self))) raw) = Some noise /\
    e = {| cfg := cfg self;
           num_tr := num_tr self + 1;
           num_tr_exp := num_tr_exp self;
           rng := r3;
           trial := Some {| tmax := f + s + d;
                            fixation_0 := 0;
                            fixation_1 := f;
                            stimulus_0 := f;
                            stimulus_1 := f + s;
                            decision_0 := f + s;
                            decision_1 := f + s + d;
                            ground_truth := gt0;
                            coh := coh0;
                            obs := Py.add_rows
                                     (map (fun x => Py.within f x (f + s)) ts)
                                     noise
                                     (noise_free (Z.to_nat (n (cfg self) + 1))
                                                 ts f s cg coh0);
                            t := 0 |} |}.
Proof.
  intros EP E. unfold new_trial in E. rewrite EP in E.
  apply bind_some in E as ([gt0 r2] & _ & E).
  apply bind_some in E as ([coh0 r3] & _ & E).
  apply bind_some in E as (ts & TS & E).
  apply bind_some in E as (obs0 & Z0 & E).
  apply bind_some in E as (obs1 & A1 & E).
  apply bind_some in E as (obs2 & A2 & E).
  apply bind_some in E as (obs4 & A4 & E).
  apply bind_some in E as ([raw g2] & R & E).
  apply bind_some in E as (obs5 & A5 & E).
  injection E as <- <-.
  unfold Py.zeros2 in Z0.
  destruct (n (cfg self) + 1 <? 0)%Z eqn:N; [discriminate|].
  apply Z.ltb_ge in N. injection Z0 as <-.
  apply bind_some in A1 as (c0 & I0 & A1). injection A1 as <-.
  apply bind_some in A2 as (c0' & I0' & A2). injection A2 as <-.
  rewrite I0 in I0'. injection I0' as <-.
  apply bind_some in A4 as (cg & IG & A4). injection A4 as <-.
  apply bind_some in A5 as (noise & B & A5). injection A5 as <-.
  assert (N1 : (0 <= n (cfg self))%Z).
  { unfold Py.index in I0. cbn in I0.
    destruct (0 <? Z.of_nat (Z.to_nat (n (cfg self) + 1)))%Z eqn:P;
      [|discriminate].
    apply Z.ltb_lt in P. lia. }
  assert (C0 : c0 = 0%nat).
  { rewrite index_inside in I0 by lia. now injection I0 as <-. }
  subst c0.
  exists gt0, coh0, r3, ts, cg, raw, noise.
  repeat split; try assumption.
Qed.

Lemma arange_length (stop step : Q) (ts : list Q) :
  Py.arange stop step = Some ts ->
  length ts = Z.to_nat (Qceiling (stop / step)) /\
  forall i, (i < length ts)%nat ->
    nth_error ts i = Some (inject_Z (Z.of_nat i) * step).
Proof.
  unfold Py.arange. destruct (Qeq_bool step 0); [discriminate|].
  intros [= <-]. rewrite length_map, length_seq. split; [reflexivity|].
  intros i I. rewrite nth_error_map, nth_error_seq.
  apply Nat.ltb_lt in I. now rewrite I.
Qed.

Lemma noise_free_length (ncols : nat) (ts : list Q) (f s : Q) (cg : nat)
  (coh0 : Q) : length (noise_free ncols ts f s cg coh0) = length ts.
Proof.
  unfold noise_free. now rewrite !on_rows_length, repeat_length.
Qed.

(** A trial generated with a positive timestep and non-negative durations
    satisfies the timing invariant. *)
Lemma new_trial_well_formed `{Runtime} (kw : kwargs) (self : nalt_RDM)
  (g : RandomState) (e : nalt_RDM) (g' : RandomState) (f s d : Q)
  (r1 : RandomState) :
  epochs kw self = (f, s, d, r1) ->
  0 < dt (cfg self) -> 0 <= f -> 0 <= s -> 0 <= d ->
  new_trial kw self g = Some (e, g') ->
  exists tr, trial e = Some tr /\ cfg e = cfg self /\
             well_formed (cfg e) tr = true /\ t tr = 0.
Proof.
  intros EP D F S DD E.
  destruct (new_trial_inv _ _ _ _ _ _ _ _ _ EP E)
    as (gt0 & coh0 & r3 & ts & cg & raw & noise & TS & N & _ & _ & _ & ->).
  eexists. split; [reflexivity|]. split; [reflexivity|].
  split; [|reflexivity].
  apply arange_length in TS as [L _].
  unfold well_formed. cbn.
  rewrite add_rows_length, noise_free_length, L, Nat.eqb_refl.
  rewrite !andb_true_iff, Qltb_iff, Z.leb_le, !Qeq_bool_iff, !Qle_bool_iff.
  repeat split; try lra; try lia.
Qed.


Lemma arange_grid (stop step : Q) (ts : list Q) :
  Py.arange stop step = Some ts ->
  ts = map (fun i => inject_Z (Z.of_nat i) * step) (seq 0 (length ts)).
Proof.
  unfold Py.arange. destruct (Qeq_bool step 0); [discriminate|].
  intros [= <-]. now rewrite length_map, length_seq.
Qed.



Lemma arange_times (c : Config) (stop : Q) (ts : list Q) :
  Py.arange stop (dt c) = Some ts ->
  ts = map (time_of c) (seq 0 (Z.to_nat (Qceiling (stop / dt c)))).
Proof.
  unfold Py.arange. destruct (Qeq_bool (dt c) 0); [discriminate|].
  now intros [= <-].
Qed.

Lemma randn_shape `{Runtime} (d0 d1 : Z) (g g' : RandomState)
  (raw : list (list Q)) (k : Q) :
  randn d0 d1 g = Some (raw, g') ->
  Forall (fun x => length x = Z.to_nat d1) (map (map (fun z => z * k)) raw).
Proof.
  unfold randn. destruct ((d0 <? 0) || (d1 <? 0))%Z; [discriminate|].
  intros [= E]. destruct (normal_rows_shape (Z.to_nat d0) (Z.to_nat d1) g)
    as [_ F].
  destruct (normal_rows (Z.to_nat d0) (Z.to_nat d1) g) as [raw' g2].
  injection E as <- _. cbn in F.
  apply Forall_map. eapply Forall_impl; [|exact F].
  intros x L. cbn. now rewrite length_map.
Qed.




(** * What the two generators decide *)

(** Two calls of [new_trial] on the same environment with the same keyword
    arguments agree on everything but the noise: they leave the owned
    generator in the same state and give the same intervals, ground truth,
    coherence and noise-free matrix, to which each adds the noise it drew
    from the process-wide generator. *)
Lemma new_trial_differs_by_noise `{Runtime} (kw : kwargs) (self : nalt_RDM)
  (ga gb : RandomState) (ea eb : nalt_RDM) (ga' gb' : RandomState) :
  new_trial kw self ga = Some (ea, ga') ->
  new_trial kw self gb = Some (eb, gb') ->
  rng ea = rng eb /\
  exists tra trb mask clean noise_a noise_b,
    trial ea = Some tra /\ trial eb = Some trb /\
    (tmax tra = tmax trb /\ fixation_1 tra = fixation_1 trb /\
     stimulus_1 tra = stimulus_1 trb /\ decision_1 tra = decision_1 trb) /\
    ground_truth tra = ground_truth trb /\
    coh tra = coh trb /\
    obs tra = Py.add_rows mask noise_a clean /\
    obs trb = Py.add_rows mask noise_b clean.
Proof.
  intros A B. unfold new_trial in A, B.
  destruct (epochs kw self) as [[[f s] d] r1].
  apply bind_some in A as ([gt0 r2] & E1 & A). rewrite E1 in B.
  cbn [bind] in B.
  apply bind_some in A as ([coh0 r3] & E2 & A). rewrite E2 in B.
  cbn [bind] in B.
  apply bind_some in A as (ts & E3 & A). rewrite E3 in B. cbn [bind] in B.
  apply bind_some in A as (obs0 & E4 & A). rewrite E4 in B. cbn [bind] in B.
  apply bind_some in A as (obs1 & E5 & A). rewrite E5 in B. cbn [bind] in B.
  apply bind_some in A as (obs2 & E6 & A). rewrite E6 in B. cbn [bind] in B.
  apply bind_some in A as (obs4 & E7 & A). rewrite E7 in B. cbn [bind] in B.
  apply bind_some in A as ([rawa ga2] & _ & A).
  apply bind_some in B as ([rawb gb2] & _ & B).
  apply bind_some in A as (obsa & NA & A).
  apply bind_some in B as (obsb & NB & B).
  apply bind_some in NA as (noise_a & _ & NA).
  apply bind_some in NB as (noise_b & _ & NB).
  injection NA as <-. injection NB as <-.
  injection A as <- _. injection B as <- _.
  split; [reflexivity|].
  eexists _, _, _, _, _, _. cbn.
  repeat split; reflexivity.
Qed.

(** * The invariants along a trial *)

(** A freshly generated trial starts on the grid. *)
Lemma new_trial_on_grid `{Runtime} (kw : kwargs) (self : nalt_RDM)
  (g : RandomState) (e : nalt_RDM) (g' : RandomState) (tr : Trial) :
  new_trial kw self g = Some (e, g') -> trial e = Some tr ->
  on_grid (cfg e) tr.
Proof.
  intros E T. destruct (epochs kw self) as [[[f s] d] r1] eqn:EP.
  destruct (new_trial_inv _ _ _ _ _ _ _ _ _ EP E)
    as (gt0 & coh0 & r3 & ts & cg & raw & noise & _ & _ & _ & _ & _ & ->).
  cbn in T. injection T as <-. exists 0%nat. cbn [t cfg].
  change (inject_Z (Z.of_nat 0)) with 0. ring.
Qed.

(** A call of [_step] that returns advances elapsed time by one timestep
    and keeps the configuration, the timing invariant and the grid. *)
Lemma _step_advances `{Runtime} (self : nalt_RDM) (g : RandomState)
  (self1 : nalt_RDM) (g1 : RandomState) (tr : Trial) (action : Z)
  (r : Result) (self2 : nalt_RDM) (g2 : RandomState) :
  stepping self g self1 g1 tr ->
  _step action self g = Some (r, self2, g2) ->
  cfg self2 = cfg self1 /\ trial self2 = Some (tick (cfg self1) tr) /\
  (well_formed (cfg self1) tr = true ->
   well_formed (cfg self1) (tick (cfg self1) tr) = true) /\
  (on_grid (cfg self1) tr -> on_grid (cfg self1) (tick (cfg self1) tr)).
Proof.
  intros [S1 S2] E. unfold _step in E. rewrite S1 in E. cbn [bind] in E.
  rewrite S2 in E. cbn [bind] in E.
  apply bind_some in E as ([[v r0] b0] & _ & E).
  destruct (Qeq_bool (dt (cfg self1)) 0); [discriminate|].
  apply bind_some in E as (o & _ & E).
  destruct (tasktools_new_trial _ _ _ _ _ _) as [r1 b1].
  injection E as _ <- _. cbn. repeat split.
  - intro W. pose proof (well_formed_spec _ _ W) as
      (D & N & F0 & F & S0 & S & D0 & DD & M & L & T).
    unfold well_formed. cbn.
    rewrite !andb_true_iff, Qltb_iff, Z.leb_le, !Qeq_bool_iff,
      !Qle_bool_iff, Nat.eqb_eq.
    repeat split; try assumption. lra.
  - intros [k K]. exists (S k). cbn [tick t]. rewrite K.
    rewrite Nat2Z.inj_succ. unfold Z.succ. rewrite inject_Z_plus. ring.
Qed.

(** * Construction *)

(** C7, as the code has it.  The constructor validates neither the durations
    nor the number of choices: for a positive whole-number timestep,
    whole-number durations of any sign, zero and negative ones included, and
    any number of choices from 0 up to 2^16, fewer than 2 included, it
    returns, and it stores the durations and the number of choices as
    given. *)
Theorem construction_does_not_validate `{Runtime} (dt0 : Q)
  (t0 t1 t2 t3 t4 : Q) (stimEv : Q) (n_ch bound : Z) (seeded : RandomState) :
  0 < dt0 -> Py.whole dt0 = true ->
  Py.whole t0 = true -> Py.whole t1 = true -> Py.whole t2 = true ->
  Py.whole t3 = true -> Py.whole t4 = true ->
  (0 <= n_ch <= 2 ^ 16)%Z ->
  exists e,
    __init__ dt0 (t0, t1, t2, t3, t4) stimEv n_ch bound seeded = Some e /\
    (fixation (cfg e) = t0 /\ stimulus_mean (cfg e) = t2 /\
     stimulus_max (cfg e) = t3 /\ decision (cfg e) = t4) /\
    n (cfg e) = n_ch.
Proof.
  intros D _ _ _ _ _ _ N. unfold __init__.
  destruct (Qeq_bool dt0 0) eqn:E; [apply Qeq_bool_iff in E; lra|].
  assert (P : (n_ch + 1 <? 0)%Z = false) by (apply Z.ltb_ge; lia).
  rewrite P. eexists. split; [reflexivity|]. cbn [cfg Env_init].
  repeat split; reflexivity.
Qed.

(** * The scenario of the specification, step by step *)

(** C1, at a concrete input.  One timestep into the scenario elapsed time is
    in the stimulus interval; action 1 there is answered with reward 0, not
    with the abort penalty, and nothing is flagged. *)
Lemma stimulus_action_is_no_abort :
  exists e g tr r e' g',
    Demo.holding 1 = Some (e, g) /\
    trial e = Some tr /\
    stimulus_0 tr <= t tr < stimulus_1 tr /\
    _step 1 e g = Some (r, e', g') /\
    reward r = 0 /\
    ~ reward r == R_ABORTED (cfg e) /\
    info_new_trial (info r) = false.
Proof.
  eexists _, _, _, _, _, _.
  split; [vm_compute; reflexivity|].
  split; [reflexivity|].
  split; [split; vm_compute; congruence|].
  split; [vm_compute; reflexivity|].
  split; [reflexivity|].
  split; [vm_compute; congruence|reflexivity].
Qed.

(** C8, at a concrete input.  With three choices, action 7 at the first
    timestep of the scenario is not rejected: [_step] returns, with the
    abort penalty of a non-zero action during fixation. *)
Lemma out_of_range_action_accepted :
  exists e g r e' g',
    Demo.scenario 0 = Some (e, g) /\
    n (cfg e) = 3%Z /\
    _step 7 e g = Some (r, e', g') /\
    reward r = R_ABORTED (cfg e).
Proof.
  eexists _, _, _, _, _.
  split; [vm_compute; reflexivity|].
  split; [reflexivity|].
  split; [vm_compute; reflexivity|reflexivity].
Qed.

(** C7, at a concrete input.  Construction with a fixation of 0, a negative
    decision window and a single choice succeeds. *)
Lemma invalid_construction_accepted :
  exists e,
    __init__ (H := Demo.runtime) 100 (0, 80, 330, 1500, - (500)) 1 1 10 0%nat
    = Some e /\
    fixation (cfg e) == 0 /\ decision (cfg e) < 0 /\ n (cfg e) = 1%Z.
Proof.
  eexists. split; [vm_compute; reflexivity|].
  repeat split; vm_compute; congruence.
Qed.


(** C3, at the failing input.  After five timesteps of the scenario with
    action 0, elapsed time has reached the total duration of the trial; the
    next call of [_step] raises, whatever the action, instead of returning
    the miss reward: the observation matrix has no row for that time. *)
Theorem step_at_deadline_raises :
  exists e g tr,
    Demo.holding 5 = Some (e, g) /\
    trial e = Some tr /\
    tmax tr <= t tr /\
    Py.row (obs tr) (Py.int (t tr / dt (cfg e))) = None /\
    forall action, _step action e g = None.
Proof.
  eexists _, _, _.
  split; [vm_compute; reflexivity|].
  split; [reflexivity|].
  split; [vm_compute; congruence|].
  split; [vm_compute; reflexivity|].
  intro action. eapply _step_beyond.
  - split; reflexivity.
  - vm_compute; reflexivity.
  - exists 5%nat. vm_compute. reflexivity.
  - vm_compute; congruence.
Qed.

(** C6, at the failing input.  Two calls of [new_trial] on the same
    environment, hence from the same state of the owned generator, with the
    same overrides, give different observation matrices when numpy's
    process-wide generator is in different states: the noise is drawn from
    that generator and not from the owned one, which both calls leave
    untouched. *)
Theorem noise_not_from_owned_generator :
  exists e e1 g1 tr1 e2 g2 tr2,
    Demo.env0 = Some e /\
    new_trial (H := Demo.runtime) Demo.scenario_kw e 0%nat = Some (e1, g1) /\
    new_trial (H := Demo.runtime) Demo.scenario_kw e 1%nat = Some (e2, g2) /\
    trial e1 = Some tr1 /\ trial e2 = Some tr2 /\
    rng e1 = rng e /\ rng e2 = rng e /\
    g1 <> 0%nat /\
    obs tr1 <> obs tr2.
Proof.
  eexists _, _, _, _, _, _, _.
  split; [vm_compute; reflexivity|].
  split; [vm_compute; reflexivity|].
  split; [vm_compute; reflexivity|].
  split; [reflexivity|]. split; [reflexivity|].
  split; [reflexivity|]. split; [reflexivity|].
  split; [discriminate|]. discriminate.
Qed.

(** * The theorems at the scenario of the specification *)

Ltac by_computation :=
  first [ reflexivity
        | vm_compute; reflexivity
        | vm_compute; congruence
        | split; vm_compute; congruence
        | split; reflexivity
        | lia ].

(** Three timesteps into the scenario, at the start of the decision window. *)
Lemma decision_reward_and_trial_end_witness :
  exists e g tr,
    Demo.holding 3 = Some (e, g) /\
    trial e = Some tr /\
    decision_0 tr <= t tr < decision_1 tr /\
    exists r self2,
      _step 2 e g = Some (r, self2, g) /\
      (2%Z = ground_truth tr -> reward r = R_CORRECT (cfg e)) /\
      (2%Z <> ground_truth tr -> reward r = R_FAIL (cfg e)) /\
      (2%Z <> 0%Z -> info_new_trial (info r) = true) /\
      (2%Z = 0%Z -> info_new_trial (info r) = false).
Proof.
  eexists _, _, _.
  split; [vm_compute; reflexivity|].
  split; [reflexivity|].
  split; [by_computation|].
  eapply (decision_reward_and_trial_end (H := Demo.runtime));
    by_computation.
Defined.

(** The first timestep of the scenario, in the fixation interval. *)
Lemma abort_during_fixation_witness :
  exists e g tr,
    Demo.scenario 0 = Some (e, g) /\
    trial e = Some tr /\
    fixation_0 tr <= t tr < fixation_1 tr /\
    (exists r self2,
       _step 1 e g = Some (r, self2, g) /\
       reward r = R_ABORTED (cfg e) /\
       (info_new_trial (info r) = true <-> abort (cfg e) = true)) /\
    (forall dt0 timing stimEv n_ch bound seeded e0,
       __init__ (H := Demo.runtime) dt0 timing stimEv n_ch bound seeded
       = Some e0 ->
       abort (cfg e0) = false).
Proof.
  eexists _, _, _.
  split; [vm_compute; reflexivity|].
  split; [reflexivity|].
  split; [by_computation|].
  eapply (abort_during_fixation (H := Demo.runtime));
    by_computation.
Defined.

(** One timestep into the scenario, in the stimulus interval. *)
Lemma stimulus_action_not_penalised_witness :
  exists e g tr,
    Demo.holding 1 = Some (e, g) /\
    trial e = Some tr /\
    stimulus_0 tr <= t tr < stimulus_1 tr /\
    exists r self2,
      _step 1 e g = Some (r, self2, g) /\
      reward r = 0 /\
      info_new_trial (info r) = false /\
      one_hot (info_gt (info r)) 0.
Proof.
  eexists _, _, _.
  split; [vm_compute; reflexivity|].
  split; [reflexivity|].
  split; [by_computation|].
  eapply (stimulus_action_not_penalised (H := Demo.runtime));
    by_computation.
Defined.

(** Action 7, with three choices, at the start of the decision window. *)
Lemma out_of_range_action_processed_witness :
  exists e g tr,
    Demo.holding 3 = Some (e, g) /\
    trial e = Some tr /\
    (7 < 0 \/ n (cfg e) < 7)%Z /\
    t tr < tmax tr /\
    (exists r self2,
       _step 7 e g = Some (r, self2, g) /\
       (fixation_0 tr <= t tr < fixation_1 tr ->
        reward r = R_ABORTED (cfg e) /\
        info_new_trial (info r) = abort (cfg e)) /\
       (stimulus_0 tr <= t tr < stimulus_1 tr ->
        reward r = 0 /\ info_new_trial (info r) = false) /\
       (decision_0 tr <= t tr < decision_1 tr ->
        reward r = R_FAIL (cfg e) /\ info_new_trial (info r) = true)) /\
    (forall other, other <> 0%Z -> other <> ground_truth tr ->
       _step other e g = _step 7 e g).
Proof.
  eexists _, _, _.
  split; [vm_compute; reflexivity|].
  split; [reflexivity|].
  split; [right; by_computation|].
  split; [by_computation|].
  eapply (out_of_range_action_processed (H := Demo.runtime));
    try by_computation.
  right. by_computation.
Defined.

(** Action 0 at the start of the decision window of the scenario. *)
Lemma info_gt_one_hot_witness :
  exists e g tr,
    Demo.holding 3 = Some (e, g) /\
    trial e = Some tr /\
    (t tr < tmax tr -> exists r self2, _step 0 e g = Some (r, self2, g)) /\
    (forall r self2 g2,
       _step 0 e g = Some (r, self2, g2) ->
       length (info_gt (info r)) = Z.to_nat (n (cfg e) + 1) /\
       (decision_0 tr <= t tr < decision_1 tr ->
        one_hot (info_gt (info r)) (Z.to_nat (ground_truth tr))) /\
       (t tr < decision_0 tr \/ decision_1 tr <= t tr ->
        one_hot (info_gt (info r)) 0)).
Proof.
  eexists _, _, _.
  split; [vm_compute; reflexivity|].
  split; [reflexivity|].
  eapply (info_gt_one_hot (H := Demo.runtime)); by_computation.
Defined.



(** Construction with a fixation of 0, a negative decision window and a
    single choice. *)
Lemma construction_does_not_validate_witness :
  0 < 100 /\ Py.whole (- (500)) = true /\ (0 <= 1 <= 2 ^ 16)%Z /\
  exists e,
    __init__ (H := Demo.runtime) 100 (0, 80, 330, 1500, - (500)) 1 1 10 0%nat
    = Some e /\
    (fixation (cfg e) = 0 /\ stimulus_mean (cfg e) = 330 /\
     stimulus_max (cfg e) = 1500 /\ decision (cfg e) = - (500)) /\
    n (cfg e) = 1%Z.
Proof.
  split; [by_computation|]. split; [reflexivity|]. split; [lia|].
  apply (construction_does_not_validate (H := Demo.runtime));
    by_computation.
Defined.

(** * Further properties of the trial generator *)

(** What a successful [new_trial] has drawn from the owned generator. *)
Lemma new_trial_draws `{Runtime} (kw : kwargs) (self : nalt_RDM)
  (g : RandomState) (e : nalt_RDM) (g' : RandomState) (f s d : Q)
  (r1 : RandomState) :
  epochs kw self = (f, s, d, r1) ->
  new_trial kw self g = Some (e, g') ->
  exists v r2 c tr,
    match gt kw with
    | Some x => Some (x, r1)
    | None => choice (choices (cfg self)) r1
    end = Some (v, r2) /\
    match kw_coh kw with
    | Some x => Some (x, r2)
    | None => choice (cohs (cfg self)) r2
    end = Some (c, rng e) /\
    trial e = Some tr /\ ground_truth tr = v /\ coh tr = c /\
    cfg e = cfg self /\ num_tr e = (num_tr self + 1)%Z /\
    num_tr_exp e = num_tr_exp self /\ t tr = 0 /\
    tmax tr = f + s + d /\ fixation_0 tr = 0 /\ fixation_1 tr = f /\
    stimulus_0 tr = f /\ stimulus_1 tr = f + s /\
    decision_0 tr = f + s /\ decision_1 tr = f + s + d.
Proof.
  intros EP E. unfold new_trial in E. rewrite EP in E.
  apply bind_some in E as ([v r2] & E1 & E).
  apply bind_some in E as ([c r3] & E2 & E).
  apply bind_some in E as (ts & _ & E).
  apply bind_some in E as (obs0 & _ & E).
  apply bind_some in E as (obs1 & _ & E).
  apply bind_some in E as (obs2 & _ & E).
  apply bind_some in E as (obs4 & _ & E).
  apply bind_some in E as ([raw g2] & _ & E).
  apply bind_some in E as (obs5 & _ & E).
  injection E as <- _. cbn.
  eexists v, r2, c, _. repeat split; try reflexivity; assumption.
Qed.

(** A generated trial is one more trial, at elapsed time 0. *)
Lemma new_trial_counter `{Runtime} (kw : kwargs) (self : nalt_RDM)
  (g : RandomState) (e : nalt_RDM) (g' : RandomState) :
  new_trial kw self g = Some (e, g') ->
  num_tr e = (num_tr self + 1)%Z /\ exists tr, trial e = Some tr /\ t tr = 0.
Proof.
  intro E. destruct (epochs kw self) as [[[f s] d] r1] eqn:EP.
  destruct (new_trial_draws _ _ _ _ _ _ _ _ _ EP E)
    as (v & r2 & c & tr & _ & _ & T & _ & _ & _ & N & _ & T0 & _).
  eauto.
Qed.

(** X1.  A call of [new_trial] that returns has left the configuration and
    the bound on the number of trials as they were, has counted one more
    trial and has set elapsed time to 0. *)
Theorem new_trial_bookkeeping `{Runtime} (kw : kwargs) (self : nalt_RDM)
  (g : RandomState) (e : nalt_RDM) (g' : RandomState) :
  new_trial kw self g = Some (e, g') ->
  cfg e = cfg self /\
  num_tr e = (num_tr self + 1)%Z /\
  num_tr_exp e = num_tr_exp self /\
  exists tr, trial e = Some tr /\ t tr = 0.
Proof.
  intro E. destruct (epochs kw self) as [[[f s] d] r1] eqn:EP.
  destruct (new_trial_draws _ _ _ _ _ _ _ _ _ EP E)
    as (v & r2 & c & tr & _ & _ & T & _ & _ & C & N & B & T0 & _).
  eauto 10.
Qed.

(** X2.  With durations, ground truth and coherence all given, [new_trial]
    draws nothing from the owned generator, whose state it leaves as it was,
    and the trial has exactly the given ground truth and coherence and the
    intervals [[0,f)], [[f,f+s)] and [[f+s,f+s+d)] of the given durations. *)
Theorem overrides_bypass_sampling `{Runtime} (kw : kwargs) (self : nalt_RDM)
  (g : RandomState) (e : nalt_RDM) (g' : RandomState) (f s d : Q) (v : Z)
  (c : Q) :
  durs kw = Some (f, s, d) -> gt kw = Some v -> kw_coh kw = Some c ->
  new_trial kw self g = Some (e, g') ->
  rng e = rng self /\
  exists tr,
    trial e = Some tr /\
    ground_truth tr = v /\ coh tr = c /\
    (fixation_0 tr = 0 /\ fixation_1 tr = f) /\
    (stimulus_0 tr = f /\ stimulus_1 tr = f + s) /\
    (decision_0 tr = f + s /\ decision_1 tr = f + s + d) /\
    tmax tr = f + s + d.
Proof.
  intros D G C E.
  assert (EP : epochs kw self = (f, s, d, rng self))
    by (unfold epochs; now rewrite D).
  destruct (new_trial_draws _ _ _ _ _ _ _ _ _ EP E)
    as (v' & r2 & c' & tr & E1 & E2 & T & GT & CT & _ & _ & _ & _ & M & F0
        & F1 & S0 & S1 & D0 & D1).
  rewrite G in E1. injection E1 as -> <-.
  rewrite C in E2. injection E2 as -> R.
  split; [now symmetry|]. exists tr. repeat split; assumption.
Qed.

Lemma arange1_spec (k x : Z) : In x (arange1 k) <-> (1 <= x <= k)%Z.
Proof.
  unfold arange1. rewrite in_map_iff. split.
  - intros (i & <- & I). apply in_seq in I. lia.
  - intros [L U]. exists (Z.to_nat (x - 1)). split; [lia|].
    apply in_seq. lia.
Qed.

Lemma choice_in `{Runtime} {A : Type} (a : list A) (s s' : RandomState)
  (x : A) : choice a s = Some (x, s') -> In x a.
Proof.
  unfold choice. destruct (randint s (length a)) as [i s2].
  intro E. apply bind_some in E as (y & N & E). injection E as <- _.
  eapply nth_error_In, N.
Qed.

Lemma init_config `{Runtime} (dt0 : Q) (timing : Q * Q * Q * Q * Q)
  (stimEv : Q) (n_ch bound : Z) (seeded : RandomState) (e0 : nalt_RDM) :
  __init__ dt0 timing stimEv n_ch bound seeded = Some e0 ->
  ~ dt0 == 0 /\ (-1 <= n_ch)%Z /\
  dt (cfg e0) = dt0 /\ n (cfg e0) = n_ch /\
  choices (cfg e0) = arange1 n_ch /\
  cohs (cfg e0)
  = map (fun c => c * stimEv) [0; 64 # 10; 128 # 10; 256 # 10; 512 # 10].
Proof.
  destruct timing as [[[[t0 t1] t2] t3] t4]. unfold __init__.
  destruct (Qeq_bool dt0 0) eqn:D; [discriminate|].
  destruct (n_ch + 1 <? 0)%Z eqn:N; [discriminate|].
  intros [= <-]. apply Qeq_bool_neq in D. apply Z.ltb_ge in N.
  cbn. repeat split; try reflexivity; try assumption; lia.
Qed.

(** X3.  In an environment that has the configuration of a constructed
    one, a ground truth that [new_trial] draws is one of the choices
    [1..n_ch], and a coherence it draws is one of the five levels 0, 6.4,
    12.8, 25.6 and 51.2 times [stimEv]. *)
Theorem sampled_trial_parameters `{Runtime} (dt0 : Q)
  (timing : Q * Q * Q * Q * Q) (stimEv : Q) (n_ch bound : Z)
  (seeded : RandomState) (e0 : nalt_RDM) (kw : kwargs) (self : nalt_RDM)
  (g : RandomState) (e : nalt_RDM) (g' : RandomState) (tr : Trial) :
  __init__ dt0 timing stimEv n_ch bound seeded = Some e0 ->
  cfg self = cfg e0 ->
  new_trial kw self g = Some (e, g') ->
  trial e = Some tr ->
  (gt kw = None -> (1 <= ground_truth tr <= n_ch)%Z) /\
  (kw_coh kw = None ->
   exists level,
     In level [0; 64 # 10; 128 # 10; 256 # 10; 512 # 10] /\
     coh tr = level * stimEv).
Proof.
  intros I C E T. destruct (init_config _ _ _ _ _ _ _ I)
    as (_ & _ & _ & _ & CH & CO).
  destruct (epochs kw self) as [[[f s] d] r1] eqn:EP.
  destruct (new_trial_draws _ _ _ _ _ _ _ _ _ EP E)
    as (v & r2 & c & tr' & E1 & E2 & T' & GT & CT & _).
  rewrite T in T'. injection T' as <-. subst v c.
  rewrite C in E1, E2. split.
  - intro G. rewrite G, CH in E1. apply choice_in in E1.
    now apply arange1_spec.
  - intro K. rewrite K, CO in E2. apply choice_in in E2.
    apply in_map_iff in E2 as (level & <- & L). eauto.
Qed.

(** X4.  In an environment constructed with no choice ([n_ch <= 0]),
    [new_trial] raises unless the ground truth is given: there is nothing to
    draw it from. *)
Theorem no_choices_no_sampled_target `{Runtime} (dt0 : Q)
  (timing : Q * Q * Q * Q * Q) (stimEv : Q) (n_ch bound : Z)
  (seeded : RandomState) (e0 : nalt_RDM) (kw : kwargs) (self : nalt_RDM)
  (g : RandomState) :
  __init__ dt0 timing stimEv n_ch bound seeded = Some e0 ->
  cfg self = cfg e0 ->
  (n_ch <= 0)%Z -> gt kw = None ->
  new_trial kw self g = None.
Proof.
  intros I C N G. destruct (init_config _ _ _ _ _ _ _ I)
    as (_ & _ & _ & _ & CH & _).
  destruct (new_trial kw self g) as [[e g']|] eqn:E; [|reflexivity].
  destruct (epochs kw self) as [[[f s] d] r1] eqn:EP.
  destruct (new_trial_draws _ _ _ _ _ _ _ _ _ EP E)
    as (v & r2 & c & tr' & E1 & _).
  rewrite G, C, CH in E1. apply choice_in in E1.
  apply arange1_spec in E1. lia.
Qed.

(** * The shape and the content of the observation matrix *)

Lemma on_rows_Forall (P : list Q -> Prop) (f : list Q -> list Q)
  (mask : list bool) (a : list (list Q)) :
  (forall r, P r -> P (f r)) -> Forall P a -> Forall P (Py.on_rows f mask a).
Proof.
  intros PF. revert a. induction mask as [|m mask IH]; intros [|r a] F; cbn;
    try assumption.
  inversion F; subst. constructor; [destruct m; auto|auto].
Qed.

Lemma vadd_length (x y : list Q) :
  length (Py.vadd x y) = Nat.min (length x) (length y).
Proof.
  revert y. induction x as [|a x IH]; intros [|b y]; cbn; auto.
Qed.

Lemma add_rows_Forall (k : nat) (mask : list bool) (e a : list (list Q)) :
  Forall (fun x => length x = k) e ->
  Forall (fun r => length r = S k) a ->
  Forall (fun r => length r = S k) (Py.add_rows mask e a).
Proof.
  revert e a.
  induction mask as [|[|] mask IH]; intros [|x e] [|r a] E A; cbn;
    try assumption; inversion A; subst; constructor; auto.
  - inversion E; subst. destruct r as [|r0 r]; cbn in *; [lia|].
    rewrite vadd_length. lia.
  - inversion E; subst. auto.
Qed.

Lemma fill_tail_length (v : Q) (r : list Q) :
  length (Py.fill_tail v r) = length r.
Proof. destruct r; cbn; [reflexivity|]. now rewrite length_map. Qed.

Lemma noise_free_shape (ncols : nat) (ts : list Q) (f s : Q) (cg : nat)
  (coh0 : Q) :
  Forall (fun r => length r = ncols) (noise_free ncols ts f s cg coh0).
Proof.
  unfold noise_free.
  repeat (apply on_rows_Forall;
          [intros r R;
           rewrite ?set_nth_length, ?fill_tail_length; exact R|]).
  apply Forall_forall. intros r I. apply repeat_spec in I as ->.
  apply repeat_length.
Qed.

(** X5.  Every row of the observation matrix of a generated trial has
    [n+1] entries, one for the fixation cue and one per choice. *)
Theorem observation_rows_have_width `{Runtime} (kw : kwargs)
  (self : nalt_RDM) (g : RandomState) (e : nalt_RDM) (g' : RandomState)
  (tr : Trial) :
  new_trial kw self g = Some (e, g') ->
  trial e = Some tr ->
  Forall (fun r => length r = Z.to_nat (n (cfg self) + 1)) (obs tr).
Proof.
  intros E T. destruct (epochs kw self) as [[[f s] d] r1] eqn:EP.
  destruct (new_trial_inv _ _ _ _ _ _ _ _ _ EP E)
    as (gt0 & coh0 & r3 & ts & cg & raw & noise & _ & N & _ & R & B & ->).
  cbn in T. injection T as <-. cbn [obs].
  destruct (broadcast_rows_spec _ _ _ _ B (randn_shape _ _ _ _ _ _ R))
    as [_ BF].
  replace (Z.to_nat (n (cfg self) + 1)) with (S (Z.to_nat (n (cfg self))))
    by lia.
  apply add_rows_Forall; [exact BF|].
  apply noise_free_shape.
Qed.

(** A row of the noise-free matrix outside the stimulus interval. *)
Lemma noise_free_row_outside (ncols : nat) (ts : list Q) (f s : Q) (cg : nat)
  (coh0 : Q) (i : nat) (x : Q) :
  nth_error ts i = Some x ->
  Py.within f x (f + s) = false ->
  nth_error (noise_free ncols ts f s cg coh0) i
  = Some (if Py.within 0 x f then Py.set_nth 0 1 (repeat 0 ncols)
          else repeat 0 ncols).
Proof.
  intros X W. unfold noise_free.
  assert (I : (i < length ts)%nat) by (apply nth_error_Some; congruence).
  assert (R0 : nth_error (repeat (repeat 0 ncols) (length ts)) i
               = Some (repeat 0 ncols)) by (now apply nth_error_repeat).
  assert (MF : nth_error (map (fun x => Py.within 0 x f) ts) i
               = Some (Py.within 0 x f))
    by (now rewrite nth_error_map, X).
  assert (MS : nth_error (map (fun x => Py.within f x (f + s)) ts) i
               = Some false)
    by (now rewrite nth_error_map, X, <- W).
  pose proof (on_rows_nth_error (Py.set_nth 0 1) _ _ _ _ _ MF R0) as R1.
  pose proof (on_rows_nth_error (Py.set_nth 0 1) _ _ _ _ _ MS R1) as R2.
  pose proof (on_rows_nth_error
                (Py.fill_tail ((1 - coh0 / 100) / 2)) _ _ _ _ _ MS R2) as R3.
  pose proof (on_rows_nth_error
                (Py.set_nth cg ((1 + coh0 / 100) / 2)) _ _ _ _ _ MS R3)
    as R4.
  exact R4.
Qed.

(** The mask of the stimulus interval that [new_trial] computes is the one
    [stimulus_rows] reads off the finished trial. *)
Lemma stimulus_rows_mask (c : Config) (tr : Trial) (ts : list Q) (L : nat) :
  ts = map (time_of c) (seq 0 L) ->
  length (obs tr) = length ts ->
  stimulus_rows c tr
  = map (fun x => Py.within (stimulus_0 tr) x (stimulus_1 tr)) ts.
Proof.
  intros -> E. unfold stimulus_rows. rewrite E.
  now rewrite length_map, length_seq, map_map.
Qed.

(** X6.  Outside the stimulus interval the observation matrix carries no
    evidence and no noise: a row of the fixation interval is the cue 1
    followed by zeros, and a row of neither interval is all zeros. *)
Theorem rows_outside_stimulus `{Runtime} (kw : kwargs) (self : nalt_RDM)
  (g : RandomState) (e : nalt_RDM) (g' : RandomState) (tr : Trial) :
  new_trial kw self g = Some (e, g') ->
  trial e = Some tr ->
  forall i r,
    nth_error (obs tr) i = Some r ->
    ~ (stimulus_0 tr <= time_of (cfg self) i < stimulus_1 tr) ->
    (fixation_0 tr <= time_of (cfg self) i < fixation_1 tr ->
     r = 1 :: repeat 0 (Z.to_nat (n (cfg self)))) /\
    (~ (fixation_0 tr <= time_of (cfg self) i < fixation_1 tr) ->
     r = repeat 0 (Z.to_nat (n (cfg self) + 1))).
Proof.
  intros E T i r I NS. destruct (epochs kw self) as [[[f s] d] r1] eqn:EP.
  destruct (new_trial_inv _ _ _ _ _ _ _ _ _ EP E)
    as (gt0 & coh0 & r3 & ts & cg & raw & noise & TS & N & _ & _ & _ & ->).
  cbn in T. injection T as <-. cbn [obs stimulus_0 stimulus_1 fixation_0
                                      fixation_1] in *.
  apply arange_times in TS.
  assert (IL : (i < length ts)%nat).
  { assert (I' : nth_error
                   (Py.add_rows (map (fun x => Py.within f x (f + s)) ts)
                      noise
                      (noise_free (Z.to_nat (n (cfg self) + 1)) ts f s cg
                         coh0)) i <> None) by congruence.
    apply nth_error_Some in I'.
    now rewrite add_rows_length, noise_free_length in I'. }
  assert (X : nth_error ts i = Some (time_of (cfg self) i)).
  { rewrite TS in IL |- *. rewrite length_map, length_seq in IL.
    rewrite nth_error_map, nth_error_seq.
    apply Nat.ltb_lt in IL. now rewrite IL. }
  assert (W : Py.within f (time_of (cfg self) i) (f + s) = false).
  { destruct (Py.within f (time_of (cfg self) i) (f + s)) eqn:W;
      [|reflexivity]. apply within_iff in W. contradiction. }
  pose proof (noise_free_row_outside (Z.to_nat (n (cfg self) + 1)) ts f s cg
                coh0 i _ X W) as NF.
  assert (MS : nth_error (map (fun x => Py.within f x (f + s)) ts) i
               = Some false)
    by (now rewrite nth_error_map, X, <- W).
  rewrite (add_rows_skip _ _ _ _ _ MS NF) in I. injection I as <-.
  split; intro F.
  - rewrite (proj2 (within_iff _ _ _) F).
    replace (Z.to_nat (n (cfg self) + 1)) with (S (Z.to_nat (n (cfg self))))
      by lia.
    reflexivity.
  - destruct (Py.within 0 (time_of (cfg self) i) f) eqn:WF; [|reflexivity].
    apply within_iff in WF. contradiction.
Qed.

(** * When [new_trial] raises and when it cannot *)

Lemma index_valid (len : nat) (i : Z) :
  (- Z.of_nat len <= i < Z.of_nat len)%Z -> Py.index len i <> None.
Proof.
  intro R. unfold Py.index.
  destruct (Z.leb_spec 0 i); [destruct (Z.ltb_spec i (Z.of_nat len))|
                              destruct (Z.leb_spec (- Z.of_nat len) i)];
    try discriminate; lia.
Qed.

Lemma randn_rows `{Runtime} (d0 d1 : Z) (g g' : RandomState)
  (raw : list (list Q)) :
  randn d0 d1 g = Some (raw, g') ->
  (0 <= d0)%Z /\ (0 <= d1)%Z /\ length raw = Z.to_nat d0.
Proof.
  unfold randn.
  destruct (Z.ltb_spec d0 0); [discriminate|].
  destruct (Z.ltb_spec d1 0); [discriminate|]. cbn.
  intros [= E]. destruct (normal_rows_shape (Z.to_nat d0) (Z.to_nat d1) g)
    as [L _].
  destruct (normal_rows (Z.to_nat d0) (Z.to_nat d1) g) as [raw' g2].
  injection E as <- _. cbn in L. auto.
Qed.

(** X7.  What a call of [new_trial] that returns implies: a timestep other
    than 0, a number of choices that is not negative, and a stimulus
    duration whose whole number of timesteps is the number of timesteps that
    fall in the stimulus interval, or is 1.  In every other case the call
    raises. *)
Theorem new_trial_requirements `{Runtime} (kw : kwargs) (self : nalt_RDM)
  (g : RandomState) (e : nalt_RDM) (g' : RandomState) (tr : Trial)
  (f s d : Q) (r1 : RandomState) :
  epochs kw self = (f, s, d, r1) ->
  new_trial kw self g = Some (e, g') ->
  trial e = Some tr ->
  ~ dt (cfg self) == 0 /\
  (0 <= n (cfg self))%Z /\
  (Z.of_nat (Py.count (stimulus_rows (cfg self) tr))
   = Py.int (s / dt (cfg self)) \/
   Py.int (s / dt (cfg self)) = 1%Z).
Proof.
  intros EP E T.
  destruct (new_trial_inv _ _ _ _ _ _ _ _ _ EP E)
    as (gt0 & coh0 & r3 & ts & cg & raw & noise & TS & N & IG & R & B & ->).
  cbn in T. injection T as <-.
  split.
  { unfold Py.arange in TS.
    destruct (Qeq_bool (dt (cfg self)) 0) eqn:D; [discriminate|].
    now apply Qeq_bool_neq. }
  split; [exact N|].
  apply arange_times in TS.
  rewrite (stimulus_rows_mask _ _ ts _ TS)
    by (cbn [obs]; now rewrite add_rows_length, noise_free_length).
  cbn [stimulus_0 stimulus_1].
  apply randn_rows in R as (P & _ & L).
  unfold Py.broadcast_rows in B. rewrite length_map, L in B.
  destruct (Nat.eqb_spec (Z.to_nat (Py.int (s / dt (cfg self))))
              (Py.count (map (fun x => Py.within f x (f + s)) ts)))
    as [Q|Q].
  - left. lia.
  - right. destruct raw as [|x [|y raw]]; cbn in B, L; try discriminate.
    lia.
Qed.

Lemma count_app (a b : list bool) :
  Py.count (a ++ b) = (Py.count a + Py.count b)%nat.
Proof. unfold Py.count. now rewrite filter_app, length_app. Qed.

(** The number of indices below [L] that lie in [[a, a+b)]. *)
Lemma count_interval (a b L : nat) :
  Py.count (map (fun i => Nat.leb a i && Nat.ltb i (a + b)) (seq 0 L))
  = (Nat.min L (a + b) - Nat.min L a)%nat.
Proof.
  induction L as [|L IH]; [reflexivity|].
  rewrite seq_S, map_app, count_app, IH. cbn [map Nat.add].
  destruct (Nat.leb_spec a L), (Nat.ltb_spec L (a + b));
    unfold Py.count; cbn [andb filter length]; lia.
Qed.

Lemma aligned_mask (c : Config) (f s : Q) (a b L : nat) :
  0 < dt c ->
  f == inject_Z (Z.of_nat a) * dt c ->
  s == inject_Z (Z.of_nat b) * dt c ->
  map (fun x => Py.within f x (f + s)) (map (time_of c) (seq 0 L))
  = map (fun i => Nat.leb a i && Nat.ltb i (a + b)) (seq 0 L).
Proof.
  intros D F S. rewrite map_map. apply map_ext. intro i.
  apply eq_true_iff_eq. rewrite within_iff, andb_true_iff.
  rewrite Nat.leb_le, Nat.ltb_lt. unfold time_of.
  rewrite F, S.
  rewrite <- Qmult_plus_distr_l, <- inject_Z_plus, <- Nat2Z.inj_add.
  rewrite (Qmult_le_r _ _ _ D), (Qmult_lt_r _ _ _ D).
  rewrite <- Zle_Qle, <- Zlt_Qlt. lia.
Qed.

(** X8.  With explicit durations, ground truth and coherence, [new_trial]
    does not raise when timestep and durations are whole numbers, the
    timestep is positive, the fixation and the stimulus are whole numbers of
    timesteps, the decision window is not negative and the ground truth
    indexes a column of the matrix. *)
Theorem aligned_overrides_do_not_raise `{Runtime} (kw : kwargs)
  (self : nalt_RDM) (g : RandomState) (a b : nat) (f s d : Q) (v : Z)
  (c : Q) :
  0 < dt (cfg self) -> (0 <= n (cfg self))%Z ->
  durs kw = Some (f, s, d) ->
  f == inject_Z (Z.of_nat a) * dt (cfg self) ->
  s == inject_Z (Z.of_nat b) * dt (cfg self) ->
  0 <= d ->
  Py.whole (dt (cfg self)) = true ->
  Py.whole f = true -> Py.whole s = true -> Py.whole d = true ->
  gt kw = Some v -> (- (n (cfg self) + 1) <= v <= n (cfg self))%Z ->
  kw_coh kw = Some c ->
  exists e g', new_trial kw self g = Some (e, g').
Proof.
  intros D N DU F S DD _ _ _ _ G V C.
  unfold new_trial, epochs. rewrite DU, G, C. cbn [bind].
  unfold Py.arange.
  destruct (Qeq_bool (dt (cfg self)) 0) eqn:Z0;
    [apply Qeq_bool_iff in Z0; lra|]. cbn [bind].
  unfold Py.zeros2.
  assert (P : (n (cfg self) + 1 <? 0)%Z = false) by (apply Z.ltb_ge; lia).
  rewrite P. cbn [bind]. unfold Py.assign_col.
  rewrite (index_inside _ 0) by lia. cbn [bind].
  destruct (Py.index (Z.to_nat (n (cfg self) + 1)) v) as [cg|] eqn:IV.
  2:{ exfalso. revert IV. apply index_valid. lia. }
  cbn [bind].
  assert (SB : Py.int (s / dt (cfg self)) = Z.of_nat b).
  { assert (K : s / dt (cfg self) == inject_Z (Z.of_nat b)).
    { rewrite S. field. lra. }
    rewrite int_floor.
    - rewrite (Qfloor_comp _ _ K). apply Qfloor_Z.
    - rewrite K. change 0 with (inject_Z 0). rewrite <- Zle_Qle. lia. }
  rewrite SB. unfold randn.
  assert (P1 : ((Z.of_nat b <? 0) || (n (cfg self) <? 0))%Z = false).
  { apply orb_false_iff. split; apply Z.ltb_ge; lia. }
  rewrite P1.
  destruct (normal_rows_shape (Z.to_nat (Z.of_nat b))
              (Z.to_nat (n (cfg self))) g) as [RL _].
  destruct (normal_rows (Z.to_nat (Z.of_nat b)) (Z.to_nat (n (cfg self))) g)
    as [raw g2]. cbn [fst] in RL. cbn [bind].
  unfold Py.iadd_tail, Py.broadcast_rows.
  rewrite length_map, RL, Nat2Z.id.
  set (L := Z.to_nat (Qceiling ((f + s + d) / dt (cfg self)))).
  fold (time_of (cfg self)).
  rewrite (aligned_mask _ _ _ a b L D F S), count_interval.
  assert (LB : (a + b <= L)%nat).
  { unfold L. apply Nat2Z.inj_le. rewrite Z2Nat.id.
    - rewrite <- (Qceiling_Z (Z.of_nat (a + b))).
      apply Qceiling_resp_le. apply Qle_shift_div_l; [exact D|].
      rewrite Nat2Z.inj_add, inject_Z_plus, F, S. lra.
    - rewrite <- (Qceiling_Z 0). apply Qceiling_resp_le.
      apply Qdiv_nonneg; [|exact D].
      assert (0 <= inject_Z (Z.of_nat a) * dt (cfg self)).
      { apply Qmult_le_0_compat; [|lra].
        change 0 with (inject_Z 0). rewrite <- Zle_Qle. lia. }
      assert (0 <= inject_Z (Z.of_nat b) * dt (cfg self)).
      { apply Qmult_le_0_compat; [|lra].
        change 0 with (inject_Z 0). rewrite <- Zle_Qle. lia. }
      lra. }
  replace (Nat.min L (a + b) - Nat.min L a)%nat with b by lia.
  rewrite Nat.eqb_refl. cbn [bind]. eauto.
Qed.

(** * Further properties of the step function *)

(** X9.  A call of [_step] before any trial was generated is a call of
    [new_trial] without arguments followed by the call of [_step] on the
    environment that leaves. *)
Theorem first_step_generates_trial `{Runtime} (action : Z) (self : nalt_RDM)
  (g : RandomState) :
  num_tr self = 0%Z ->
  _step action self g
  = '(e, g1) <- new_trial no_kwargs self g ;; _step action e g1.
Proof.
  intro Z0. unfold _step at 1, start_first_trial. rewrite Z0. cbn [Z.eqb].
  destruct (new_trial no_kwargs self g) as [[e g1]|] eqn:E; [|reflexivity].
  cbn [bind]. unfold _step, start_first_trial.
  destruct (new_trial_counter _ _ _ _ _ E) as (N & _).
  assert (Q : (num_tr e =? 0)%Z = false) by (now rewrite N, Z0).
  rewrite Q. reflexivity.
Qed.

(** X10.  Once a trial exists, a call of [_step] that returns has changed
    nothing but elapsed time, which it advanced by one timestep:
    configuration, counters, both generators, the intervals, the ground
    truth, the coherence and the observation matrix are as before. *)
Theorem _step_changes_only_time `{Runtime} (action : Z) (self : nalt_RDM)
  (g : RandomState) (tr : Trial) (r : Result) (self2 : nalt_RDM)
  (g2 : RandomState) :
  num_tr self <> 0%Z ->
  trial self = Some tr ->
  _step action self g = Some (r, self2, g2) ->
  g2 = g /\ cfg self2 = cfg self /\ rng self2 = rng self /\
  num_tr self2 = num_tr self /\ num_tr_exp self2 = num_tr_exp self /\
  exists tr2,
    trial self2 = Some tr2 /\
    t tr2 = t tr + dt (cfg self) /\
    obs tr2 = obs tr /\ ground_truth tr2 = ground_truth tr /\
    coh tr2 = coh tr /\ tmax tr2 = tmax tr /\
    (fixation_0 tr2 = fixation_0 tr /\ fixation_1 tr2 = fixation_1 tr) /\
    (stimulus_0 tr2 = stimulus_0 tr /\ stimulus_1 tr2 = stimulus_1 tr) /\
    (decision_0 tr2 = decision_0 tr /\ decision_1 tr2 = decision_1 tr).
Proof.
  intros N T E. unfold _step, start_first_trial in E.
  apply Z.eqb_neq in N. rewrite N in E. cbn [bind] in E.
  rewrite T in E. cbn [bind] in E.
  apply bind_some in E as ([[v r0] b0] & _ & E).
  destruct (Qeq_bool (dt (cfg self)) 0); [discriminate|].
  apply bind_some in E as (o & _ & E).
  destruct (tasktools_new_trial _ _ _ _ _ _) as [r1 b1].
  injection E as _ <- <-. cbn.
  repeat split; try reflexivity.
  eexists. repeat split; reflexivity.
Qed.

(** X11.  [step] returns what [_step] returns.  When that result flags the
    end of the trial, [step] has generated the next trial, so that the
    counter is one higher and elapsed time is 0 again; otherwise the
    environment is as [_step] left it.  The [done] flag compares the counter
    with the bound before that next trial is counted. *)
Theorem step_starts_next_trial `{Runtime} (action : Z) (self : nalt_RDM)
  (g : RandomState) (r : Result) (self2 : nalt_RDM) (g2 : RandomState) :
  step action self g = Some (r, self2, g2) ->
  exists self1 g1,
    _step action self g = Some (r, self1, g1) /\
    done r = (num_tr self1 >? num_tr_exp self1)%Z /\
    (info_new_trial (info r) = true ->
     new_trial no_kwargs self1 g1 = Some (self2, g2) /\
     num_tr self2 = (num_tr self1 + 1)%Z /\
     exists tr, trial self2 = Some tr /\ t tr = 0) /\
    (info_new_trial (info r) = false -> self2 = self1 /\ g2 = g1).
Proof.
  intro E. unfold step in E.
  apply bind_some in E as ([[r' self1] g1] & S & E).
  assert (D : done r' = (num_tr self1 >? num_tr_exp self1)%Z).
  { unfold _step in S.
    apply bind_some in S as ([s1 g0] & _ & S).
    apply bind_some in S as (tr & _ & S).
    apply bind_some in S as ([[v r0] b0] & _ & S).
    destruct (Qeq_bool (dt (cfg s1)) 0); [discriminate|].
    apply bind_some in S as (o & _ & S).
    destruct (tasktools_new_trial _ _ _ _ _ _) as [r1 b1].
    injection S as <- <- _. reflexivity. }
  destruct (info_new_trial (info r')) eqn:B.
  - apply bind_some in E as ([s2 g3] & NT & E). injection E as <- <- <-.
    exists self1, g1. split; [exact S|]. split; [exact D|].
    rewrite B. split; [|discriminate]. intros _.
    destruct (new_trial_counter _ _ _ _ _ NT) as (N & TR).
    auto.
  - injection E as <- <- <-. exists self1, g1.
    split; [exact S|]. split; [exact D|]. rewrite B.
    split; [discriminate|auto].
Qed.

Lemma policy_total (c : Config) (tr : Trial) (action : Z) :
  well_formed c tr = true -> valid_target c tr = true ->
  exists v r0 b0, phase_policy c tr action = Some (v, r0, b0).
Proof.
  intros W V. unfold valid_target in V.
  apply andb_true_iff in V as [V1 V2].
  apply Z.leb_le in V1. apply Z.leb_le in V2.
  pose proof (well_formed_spec _ _ W) as WS.
  destruct (Qlt_le_dec (t tr) (fixation_1 tr)) as [F|F].
  - rewrite policy_fixation by (assumption || lra). eauto.
  - destruct (Qlt_le_dec (t tr) (decision_0 tr)) as [D|D].
    + rewrite policy_elsewhere by (assumption || lra). eauto.
    + destruct (Qlt_le_dec (t tr) (decision_1 tr)) as [E|E].
      * rewrite policy_decision by (assumption || lra || lia). eauto.
      * rewrite policy_elsewhere by (assumption || lra). eauto.
Qed.

(** X12.  On a trial that satisfies the timing invariant, with a ground
    truth among the choices, with timestep, elapsed time and total duration
    whole numbers and elapsed time a whole number of timesteps, a call of
    [_step] returns exactly when elapsed time is below the total duration of
    the trial, whatever the action. *)
Theorem _step_returns_iff_inside `{Runtime} (self : nalt_RDM)
  (g : RandomState) (self1 : nalt_RDM) (g1 : RandomState) (tr : Trial)
  (action : Z) :
  stepping self g self1 g1 tr ->
  well_formed (cfg self1) tr = true ->
  valid_target (cfg self1) tr = true ->
  on_grid (cfg self1) tr ->
  Py.whole (dt (cfg self1)) = true ->
  Py.whole (t tr) = true -> Py.whole (tmax tr) = true ->
  (_step action self g <> None <-> t tr < tmax tr).
Proof.
  intros S W V G _ _ _. split.
  - intro NN. destruct (Qlt_le_dec (t tr) (tmax tr)) as [L|L]; [exact L|].
    exfalso. apply NN. eapply _step_beyond; eassumption.
  - intro L. destruct (policy_total _ _ action W V) as (v & r0 & b0 & P).
    destruct (_step_inside self g self1 g1 tr S W action v r0 b0 L P)
      as (r & self2 & E & _).
    rewrite E. discriminate.
Qed.

(** X13.  For a whole-number timestep, the observation a call of [_step]
    returns at a whole-number elapsed time [k*dt] is row [k] of the
    observation matrix of the trial. *)
Theorem _step_observation_row `{Runtime} (self : nalt_RDM) (g : RandomState)
  (self1 : nalt_RDM) (g1 : RandomState) (tr : Trial) (action : Z) (k : nat)
  (r : Result) (self2 : nalt_RDM) (g2 : RandomState) :
  stepping self g self1 g1 tr ->
  0 < dt (cfg self1) ->
  Py.whole (dt (cfg self1)) = true -> Py.whole (t tr) = true ->
  t tr == inject_Z (Z.of_nat k) * dt (cfg self1) ->
  _step action self g = Some (r, self2, g2) ->
  nth_error (obs tr) k = Some (res_obs r).
Proof.
  intros [S1 S2] D _ _ K E. unfold _step in E. rewrite S1 in E.
  cbn [bind] in E.
  rewrite S2 in E. cbn [bind] in E.
  apply bind_some in E as ([[v r0] b0] & _ & E).
  destruct (Qeq_bool (dt (cfg self1)) 0); [discriminate|].
  apply bind_some in E as (o & O & E).
  destruct (tasktools_new_trial _ _ _ _ _ _) as [r1 b1].
  injection E as <- _ _. cbn [res_obs].
  destruct (grid_beyond_ceiling k (t tr) (t tr) _ D K (Qle_refl _))
    as [I _].
  unfold Py.row in O. rewrite I in O.
  apply bind_some in O as (c & IX & O).
  unfold Py.index in IX.
  destruct (Z.leb_spec 0 (Z.of_nat k)); [|lia].
  destruct (Z.of_nat k <? Z.of_nat (length (obs tr)))%Z; [|discriminate].
  injection IX as <-. now rewrite Nat2Z.id in O.
Qed.

(** * How many calls a trial lasts *)

(** On the grid, a time is inside the trial exactly when it has a row. *)
Lemma inside_iff_row (c : Config) (tr : Trial) (k : nat) :
  well_formed c tr = true ->
  t tr == inject_Z (Z.of_nat k) * dt c ->
  (t tr < tmax tr <-> (k < length (obs tr))%nat).
Proof.
  intros W K.
  pose proof (well_formed_spec _ _ W)
    as (D & _ & _ & _ & _ & _ & _ & _ & _ & L & T0).
  rewrite L. split.
  - intro I. destruct (floor_below_ceiling _ _ _ D T0 I) as [_ U].
    destruct (grid_beyond_ceiling k _ _ _ D K (Qle_refl _)) as [F _].
    rewrite int_floor in F by (now apply Qdiv_nonneg). lia.
  - intro I. destruct (Qlt_le_dec (t tr) (tmax tr)) as [J|J]; [exact J|].
    destruct (grid_beyond_ceiling k _ _ _ D K J) as [_ C]. lia.
Qed.

Lemma steps_along_trial `{Runtime} (actions : list Z) :
  forall (self : nalt_RDM) (g : RandomState) (tr : Trial) (k : nat),
    num_tr self <> 0%Z -> trial self = Some tr ->
    well_formed (cfg self) tr = true ->
    valid_target (cfg self) tr = true ->
    t tr == inject_Z (Z.of_nat k) * dt (cfg self) ->
    (k <= length (obs tr))%nat ->
    (steps actions self g <> None <->
     (k + length actions <= length (obs tr))%nat).
Proof.
  induction actions as [|a rest IH]; intros self g tr k N T W V K B.
  - cbn. split; [lia|discriminate].
  - assert (ST : stepping self g self g tr).
    { split; [|exact T]. unfold start_first_trial.
      apply Z.eqb_neq in N. now rewrite N. }
    assert (R : _step a self g <> None <-> t tr < tmax tr).
    { split.
      - intro NN. destruct (Qlt_le_dec (t tr) (tmax tr)) as [J|J];
          [exact J|].
        exfalso. apply NN.
        exact (_step_beyond self g self g tr ST W a (ex_intro _ k K) J).
      - intro J. destruct (policy_total _ _ a W V) as (v & r0 & b0 & P).
        destruct (_step_inside self g self g tr ST W a v r0 b0 J P)
          as (r & self2 & E & _).
        rewrite E. discriminate. }
    pose proof (inside_iff_row _ _ _ W K) as I.
    cbn [steps length].
    destruct (_step a self g) as [[[r self2] g2]|] eqn:E.
    + assert (KL : (k < length (obs tr))%nat)
        by (apply I, R; discriminate).
      destruct (_step_advances self g self g tr a r self2 g2 ST E)
        as (C & T2 & W2 & _).
      assert (N2 : num_tr self2 = num_tr self).
      { clear - E N T.
        unfold _step, start_first_trial in E.
        apply Z.eqb_neq in N. rewrite N in E. cbn [bind] in E.
        rewrite T in E. cbn [bind] in E.
        apply bind_some in E as ([[v r0] b0] & _ & E).
        destruct (Qeq_bool (dt (cfg self)) 0); [discriminate|].
        apply bind_some in E as (o & _ & E).
        destruct (tasktools_new_trial _ _ _ _ _ _) as [r1 b1].
        now injection E as _ <- _. }
      cbn [bind].
      assert (Q : steps rest self2 g2 <> None <->
                  (S k + length rest <= length (obs tr))%nat).
      { apply (IH self2 g2 (tick (cfg self) tr) (S k)).
        - now rewrite N2.
        - exact T2.
        - rewrite C. now apply W2.
        - rewrite C. exact V.
        - rewrite C. cbn [tick t]. rewrite K, Nat2Z.inj_succ.
          unfold Z.succ. rewrite inject_Z_plus. ring.
        - exact KL. }
      destruct (steps rest self2 g2) as [[[rs self3] g3]|]; cbn [bind].
      * split; [intros _|discriminate].
        assert (P : (S k + length rest <= length (obs tr))%nat)
          by (apply Q; discriminate).
        lia.
      * split; [congruence|]. intro P. exfalso.
        apply (proj2 Q); [lia|reflexivity].
    + cbn [bind]. split; [congruence|]. intro P. exfalso.
      apply (proj2 R); [|reflexivity]. apply I. lia.
Qed.

(** X14.  On a trial freshly generated with a whole-number timestep and
    whole-number durations, a run of consecutive calls of [_step] returns
    exactly when it has at most as many calls as the observation matrix has
    rows, whatever the actions: the trial lasts that many calls and the next
    one raises. *)
Theorem trial_lasts_its_rows `{Runtime} (kw : kwargs) (self : nalt_RDM)
  (g : RandomState) (e : nalt_RDM) (g' : RandomState) (tr : Trial)
  (f s d : Q) (r1 : RandomState) (actions : list Z) :
  epochs kw self = (f, s, d, r1) ->
  0 < dt (cfg self) -> 0 <= f -> 0 <= s -> 0 <= d ->
  Py.whole (dt (cfg self)) = true ->
  Py.whole f = true -> Py.whole s = true -> Py.whole d = true ->
  (0 <= num_tr self)%Z ->
  new_trial kw self g = Some (e, g') ->
  trial e = Some tr ->
  valid_target (cfg e) tr = true ->
  (steps actions e g' <> None <->
   (length actions <= length (obs tr))%nat).
Proof.
  intros EP D F S DD _ _ _ _ N E T V.
  destruct (new_trial_well_formed _ _ _ _ _ _ _ _ _ EP D F S DD E)
    as (tr' & T' & C & W & T0).
  rewrite T in T'. injection T' as <-.
  destruct (new_trial_counter _ _ _ _ _ E) as (NE & _).
  apply (steps_along_trial actions e g' tr 0); try assumption.
  - lia.
  - rewrite T0. change (inject_Z (Z.of_nat 0)) with 0. ring.
  - lia.
Qed.

(** * Values the constructor derives *)

(** X15.  The minimum stimulus duration the constructor stores is the
    larger of the given one and the timestep, hence never below either. *)
Theorem stimulus_min_at_least_timestep `{Runtime} (dt0 : Q)
  (t0 t1 t2 t3 t4 : Q) (stimEv : Q) (n_ch bound : Z) (seeded : RandomState)
  (e : nalt_RDM) :
  __init__ dt0 (t0, t1, t2, t3, t4) stimEv n_ch bound seeded = Some e ->
  dt0 <= stimulus_min (cfg e) /\ t1 <= stimulus_min (cfg e) /\
  (stimulus_min (cfg e) = dt0 \/ stimulus_min (cfg e) = t1).
Proof.
  unfold __init__.
  destruct (Qeq_bool dt0 0); [discriminate|].
  destruct (n_ch + 1 <? 0)%Z; [discriminate|].
  intros [= <-]. cbn. unfold Py.max2.
  destruct (Qle_bool t1 dt0) eqn:L.
  - apply Qle_bool_iff in L. repeat split; auto; lra.
  - assert (~ t1 <= dt0) by (intro M; apply Qle_bool_iff in M; congruence).
    repeat split; auto; lra.
Qed.

(** X16.  For a positive whole-number timestep and whole-number durations
    with a non-negative longest trial [timing[0] + timing[3] + timing[4]],
    [max_steps] is the number of whole timesteps in the longest trial. *)
Theorem max_steps_whole_timesteps `{Runtime} (dt0 : Q)
  (t0 t1 t2 t3 t4 : Q) (stimEv : Q) (n_ch bound : Z) (seeded : RandomState)
  (e : nalt_RDM) :
  __init__ dt0 (t0, t1, t2, t3, t4) stimEv n_ch bound seeded = Some e ->
  0 < dt0 -> 0 <= t0 + t3 + t4 ->
  Py.whole dt0 = true ->
  Py.whole t0 = true -> Py.whole t3 = true -> Py.whole t4 = true ->
  max_trial_duration (cfg e) = t0 + t3 + t4 /\
  (0 <= max_steps (cfg e))%Z /\
  inject_Z (max_steps (cfg e)) * dt0 <= t0 + t3 + t4 /\
  t0 + t3 + t4 < inject_Z (max_steps (cfg e) + 1) * dt0.
Proof.
  unfold __init__.
  destruct (Qeq_bool dt0 0); [discriminate|].
  destruct (n_ch + 1 <? 0)%Z; [discriminate|].
  intros [= <-] D M _ _ _ _. cbn.
  rewrite int_floor by (now apply Qdiv_nonneg).
  split; [reflexivity|]. split; [|split].
  - rewrite <- (Qfloor_Z 0). apply Qfloor_resp_le. now apply Qdiv_nonneg.
  - apply Qle_trans with ((t0 + t3 + t4) / dt0 * dt0).
    + apply Qmult_le_compat_r; [apply Qfloor_le|lra].
    + assert ((t0 + t3 + t4) / dt0 * dt0 == t0 + t3 + t4) by (field; lra).
      lra.
  - apply Qle_lt_trans with ((t0 + t3 + t4) / dt0 * dt0).
    + assert ((t0 + t3 + t4) / dt0 * dt0 == t0 + t3 + t4) by (field; lra).
      lra.
    + apply Qmult_lt_compat_r; [exact D|apply Qlt_floor].
Qed.

(** * The further properties at the scenario of the specification *)

Lemma new_trial_bookkeeping_witness :
  exists e e' g',
    Demo.env0 = Some e /\
    new_trial (H := Demo.runtime) Demo.scenario_kw e 0%nat = Some (e', g') /\
    cfg e' = cfg e /\
    num_tr e' = (num_tr e + 1)%Z /\
    num_tr_exp e' = num_tr_exp e /\
    exists tr, trial e' = Some tr /\ t tr = 0.
Proof.
  eexists _, _, _.
  split; [vm_compute; reflexivity|].
  split; [vm_compute; reflexivity|].
  eapply (new_trial_bookkeeping (H := Demo.runtime) Demo.scenario_kw _ 0%nat).
  vm_compute; reflexivity.
Defined.

Lemma overrides_bypass_sampling_witness :
  exists e e' g',
    Demo.env0 = Some e /\
    new_trial (H := Demo.runtime) Demo.scenario_kw e 0%nat = Some (e', g') /\
    rng e' = rng e /\
    exists tr,
      trial e' = Some tr /\
      ground_truth tr = 2%Z /\ coh tr = 64 # 10 /\
      (fixation_0 tr = 0 /\ fixation_1 tr = 100) /\
      (stimulus_0 tr = 100 /\ stimulus_1 tr = 100 + 200) /\
      (decision_0 tr = 100 + 200 /\ decision_1 tr = 100 + 200 + 200) /\
      tmax tr = 100 + 200 + 200.
Proof.
  eexists _, _, _.
  split; [vm_compute; reflexivity|].
  split; [vm_compute; reflexivity|].
  eapply (overrides_bypass_sampling (H := Demo.runtime) Demo.scenario_kw _
            0%nat);
    first [reflexivity | vm_compute; reflexivity].
Defined.

(** A trial of the scenario's environment with everything drawn. *)
Lemma sampled_trial_parameters_witness :
  exists e e' g' tr,
    Demo.env0 = Some e /\
    new_trial (H := Demo.runtime) no_kwargs e 0%nat = Some (e', g') /\
    trial e' = Some tr /\
    (gt no_kwargs = None -> (1 <= ground_truth tr <= 3)%Z) /\
    (kw_coh no_kwargs = None ->
     exists level,
       In level [0; 64 # 10; 128 # 10; 256 # 10; 512 # 10] /\
       coh tr = level * 1).
Proof.
  eexists _, _, _, _.
  split; [vm_compute; reflexivity|].
  split; [vm_compute; reflexivity|].
  split; [reflexivity|].
  eapply (sampled_trial_parameters (H := Demo.runtime) 100
            (100, 200, 200, 200, 200) 1 3 10 0%nat _ no_kwargs _ 0%nat);
    first [reflexivity | vm_compute; reflexivity].
Defined.

(** The scenario's environment built with no choices at all. *)
Lemma no_choices_no_sampled_target_witness :
  exists e,
    __init__ (H := Demo.runtime) 100 (100, 200, 200, 200, 200) 1 0 10 0%nat
    = Some e /\
    new_trial (H := Demo.runtime) no_kwargs e 0%nat = None.
Proof.
  eexists. split; [vm_compute; reflexivity|].
  eapply (no_choices_no_sampled_target (H := Demo.runtime) 100
            (100, 200, 200, 200, 200) 1 0 10 0%nat);
    first [reflexivity | vm_compute; reflexivity | lia].
Defined.

Lemma observation_rows_have_width_witness :
  exists e e' g' tr,
    Demo.env0 = Some e /\
    new_trial (H := Demo.runtime) Demo.scenario_kw e 0%nat = Some (e', g') /\
    trial e' = Some tr /\
    Forall (fun r => length r = Z.to_nat (n (cfg e) + 1)) (obs tr).
Proof.
  eexists _, _, _, _.
  split; [vm_compute; reflexivity|].
  split; [vm_compute; reflexivity|].
  split; [reflexivity|].
  eapply (observation_rows_have_width (H := Demo.runtime) Demo.scenario_kw _
            0%nat);
    first [reflexivity | vm_compute; reflexivity].
Defined.

(** Row 3 of the scenario, the first row of the decision window. *)
Lemma rows_outside_stimulus_witness :
  exists e e' g' tr r,
    Demo.env0 = Some e /\
    new_trial (H := Demo.runtime) Demo.scenario_kw e 0%nat = Some (e', g') /\
    trial e' = Some tr /\
    nth_error (obs tr) 3 = Some r /\
    r = repeat 0 (Z.to_nat (n (cfg e) + 1)).
Proof.
  eexists _, _, _, _, _.
  split; [vm_compute; reflexivity|].
  split; [vm_compute; reflexivity|].
  split; [reflexivity|].
  split; [reflexivity|].
  match goal with |- ?r = _ => set (row := r) end.
  refine (proj2 (rows_outside_stimulus (H := Demo.runtime) Demo.scenario_kw _
                   0%nat _ 6%nat _ _ _ 3%nat row _ _) _).
  - vm_compute; reflexivity.
  - reflexivity.
  - reflexivity.
  - vm_compute. intros [_ U]. discriminate.
  - vm_compute. intros [_ U]. discriminate.
Defined.

Lemma new_trial_requirements_witness :
  exists e e' g' tr,
    Demo.env0 = Some e /\
    new_trial (H := Demo.runtime) Demo.scenario_kw e 0%nat = Some (e', g') /\
    trial e' = Some tr /\
    ~ dt (cfg e) == 0 /\
    (0 <= n (cfg e))%Z /\
    (Z.of_nat (Py.count (stimulus_rows (cfg e) tr))
     = Py.int (200 / dt (cfg e)) \/
     Py.int (200 / dt (cfg e)) = 1%Z).
Proof.
  eexists _, _, _, _.
  split; [vm_compute; reflexivity|].
  split; [vm_compute; reflexivity|].
  split; [reflexivity|].
  eapply (new_trial_requirements (H := Demo.runtime) Demo.scenario_kw _
            0%nat _ _ _ 100 200 200);
    first [reflexivity | vm_compute; reflexivity].
Defined.

Lemma aligned_overrides_do_not_raise_witness :
  exists e,
    Demo.env0 = Some e /\
    exists e' g',
      new_trial (H := Demo.runtime) Demo.scenario_kw e 0%nat = Some (e', g').
Proof.
  eexists. split; [vm_compute; reflexivity|].
  eapply (aligned_overrides_do_not_raise (H := Demo.runtime) Demo.scenario_kw
            _ 0%nat 1 2 100 200 200 2 (64 # 10));
    first [reflexivity | vm_compute; reflexivity | vm_compute; congruence
          | split; vm_compute; congruence].
Defined.

(** The first call of [_step] on the freshly built environment. *)
Lemma first_step_generates_trial_witness :
  exists e,
    Demo.env0 = Some e /\
    num_tr e = 0%Z /\
    _step 1 e 0%nat
    = '(e', g1) <- new_trial no_kwargs e 0%nat ;; _step 1 e' g1.
Proof.
  eexists. split; [vm_compute; reflexivity|]. split; [reflexivity|].
  apply (first_step_generates_trial (H := Demo.runtime)). reflexivity.
Defined.

Lemma _step_changes_only_time_witness :
  exists e g tr r e2 g2,
    Demo.scenario 0 = Some (e, g) /\
    trial e = Some tr /\
    _step 1 e g = Some (r, e2, g2) /\
    g2 = g /\ cfg e2 = cfg e /\ rng e2 = rng e /\
    num_tr e2 = num_tr e /\ num_tr_exp e2 = num_tr_exp e /\
    exists tr2,
      trial e2 = Some tr2 /\
      t tr2 = t tr + dt (cfg e) /\
      obs tr2 = obs tr /\ ground_truth tr2 = ground_truth tr /\
      coh tr2 = coh tr /\ tmax tr2 = tmax tr /\
      (fixation_0 tr2 = fixation_0 tr /\ fixation_1 tr2 = fixation_1 tr) /\
      (stimulus_0 tr2 = stimulus_0 tr /\ stimulus_1 tr2 = stimulus_1 tr) /\
      (decision_0 tr2 = decision_0 tr /\ decision_1 tr2 = decision_1 tr).
Proof.
  eexists _, _, _, _, _, _.
  split; [vm_compute; reflexivity|].
  split; [reflexivity|].
  split; [vm_compute; reflexivity|].
  eapply (_step_changes_only_time (H := Demo.runtime) 1);
    first [reflexivity | vm_compute; reflexivity | vm_compute; congruence].
Defined.

(** The correct action at the start of the decision window ends the trial
    of the scenario, and [step] generates the next one. *)
Lemma step_starts_next_trial_witness :
  exists e g r e2 g2,
    Demo.holding 3 = Some (e, g) /\
    step 2 e g = Some (r, e2, g2) /\
    exists e1 g1,
      _step 2 e g = Some (r, e1, g1) /\
      done r = (num_tr e1 >? num_tr_exp e1)%Z /\
      (info_new_trial (info r) = true ->
       new_trial no_kwargs e1 g1 = Some (e2, g2) /\
       num_tr e2 = (num_tr e1 + 1)%Z /\
       exists tr, trial e2 = Some tr /\ t tr = 0) /\
      (info_new_trial (info r) = false -> e2 = e1 /\ g2 = g1).
Proof.
  eexists _, _, _, _, _.
  split; [vm_compute; reflexivity|].
  split; [vm_compute; reflexivity|].
  apply (step_starts_next_trial (H := Demo.runtime)).
  vm_compute; reflexivity.
Defined.

Lemma _step_returns_iff_inside_witness :
  exists e g tr,
    Demo.holding 3 = Some (e, g) /\
    trial e = Some tr /\
    on_grid (cfg e) tr /\
    (_step 1 e g <> None <-> t tr < tmax tr).
Proof.
  eexists _, _, _.
  split; [vm_compute; reflexivity|].
  split; [reflexivity|].
  assert (G : forall c tr, t tr == inject_Z (Z.of_nat 3) * dt c ->
                           on_grid c tr)
    by (intros c tr K; now exists 3%nat).
  split; [apply G; vm_compute; reflexivity|].
  eapply (_step_returns_iff_inside (H := Demo.runtime));
    first [ split; reflexivity | reflexivity
          | apply G; vm_compute; reflexivity ].
Defined.

Lemma _step_observation_row_witness :
  exists e g tr r e2 g2,
    Demo.holding 3 = Some (e, g) /\
    trial e = Some tr /\
    _step 1 e g = Some (r, e2, g2) /\
    nth_error (obs tr) 3 = Some (res_obs r).
Proof.
  eexists _, _, _, _, _, _.
  split; [vm_compute; reflexivity|].
  split; [reflexivity|].
  match goal with
  | |- _step _ ?e ?g = _ /\ _ => set (env := e); set (gen := g)
  end.
  split; [vm_compute; reflexivity|].
  eapply (_step_observation_row (H := Demo.runtime) env gen env gen _ 1 3);
    first [ split; reflexivity | vm_compute; reflexivity ].
Defined.

(** Five calls on the trial of the scenario return, six do not. *)
Lemma trial_lasts_its_rows_witness :
  exists e e' g' tr,
    Demo.env0 = Some e /\
    new_trial (H := Demo.runtime) Demo.scenario_kw e 0%nat = Some (e', g') /\
    trial e' = Some tr /\
    (steps [0; 0; 1; 0; 1]%Z e' g' <> None <->
     (length [0; 0; 1; 0; 1]%Z <= length (obs tr))%nat) /\
    (steps [0; 0; 0; 0; 0; 0]%Z e' g' <> None <->
     (length [0; 0; 0; 0; 0; 0]%Z <= length (obs tr))%nat).
Proof.
  eexists _, _, _, _.
  split; [vm_compute; reflexivity|].
  match goal with |- new_trial _ ?e _ = _ /\ _ => set (fresh := e) end.
  split; [vm_compute; reflexivity|].
  split; [reflexivity|].
  split;
    eapply (trial_lasts_its_rows (H := Demo.runtime) Demo.scenario_kw fresh
              0%nat _ _ _ 100 200 200);
    first [ reflexivity | vm_compute; reflexivity | vm_compute; congruence ].
Defined.

Lemma stimulus_min_at_least_timestep_witness :
  exists e,
    __init__ (H := Demo.runtime) 100 (500, 80, 330, 1500, 500) 1 3 10 0%nat
    = Some e /\
    100 <= stimulus_min (cfg e) /\ 80 <= stimulus_min (cfg e) /\
    (stimulus_min (cfg e) = 100 \/ stimulus_min (cfg e) = 80).
Proof.
  eexists. split; [vm_compute; reflexivity|].
  eapply (stimulus_min_at_least_timestep (H := Demo.runtime) 100 500 80 330
            1500 500 1 3 10 0%nat).
  vm_compute; reflexivity.
Defined.

Lemma max_steps_whole_timesteps_witness :
  exists e,
    __init__ (H := Demo.runtime) 100 (500, 80, 330, 1500, 500) 1 3 10 0%nat
    = Some e /\
    max_trial_duration (cfg e) = 500 + 1500 + 500 /\
    (0 <= max_steps (cfg e))%Z /\
    inject_Z (max_steps (cfg e)) * 100 <= 500 + 1500 + 500 /\
    500 + 1500 + 500 < inject_Z (max_steps (cfg e) + 1) * 100.
Proof.
  eexists. split; [vm_compute; reflexivity|].
  eapply (max_steps_whole_timesteps (H := Demo.runtime) 100 500 80 330
            1500 500 1 3 10 0%nat);
    first [ vm_compute; reflexivity | vm_compute; congruence ].
Defined.
